(** * Block-streaming chunking and coalescing resolution

    Shallow embedding of the block-streaming resolver module
    (auto-reply/reply/block-streaming.ts) and, further down, of the script
    and branch commands (auto-reply/reply/commands-scripts.ts).  The
    resolver module:

    - [normalizeChunkProvider]
    - [resolveProviderBlockStreamingCoalesce]
    - [resolveBlockStreamingChunking]
    - [resolveTelegramDraftStreamingChunking]
    - [resolveBlockStreamingCoalescing]

    Modelling conventions.

    - A TypeScript [number] read from the configuration is a finite rational
      ([Q]); [Math.floor], [Math.max] and [Math.min] are the exact operations
      on rationals.  NaN and the infinities are outside this model; the
      module [Ieee] repeats the resolvers over numbers that include them.
    - [T | undefined] (and [T | null]) is [option T]; [a ?? b] is [orElse] /
      [orDefault]; [a?.f] is the optional chain [a ?> f].
    - A JavaScript string is a [string] of 8-bit characters; [trim] and
      [toLowerCase] act on the ASCII range.
    - The collaborators that live in other modules (provider registry,
      plugin table, account normaliser, text-limit resolver) are the fields
      of the class [Collaborators]. *)

From Stdlib Require Import ZArith QArith Qround Lia String Ascii.
From stdpp Require Import base option strings gmap.

Local Open Scope Z_scope.

(** ** Numbers *)

Definition number : Type := Q.

Definition Math_floor (x : number) : number := inject_Z (Qfloor x).

Definition Math_max (a b : number) : number :=
  if Qle_bool a b then b else a.

Definition Math_min (a b : number) : number :=
  if Qle_bool a b then a else b.

(** [a ?? b] where [b] may itself be absent. *)
Definition orElse {A : Type} (a b : option A) : option A :=
  match a with
  | Some x => Some x
  | None => b
  end.

(** [a ?? b] where [b] is a value. *)
Definition orDefault {A : Type} (a : option A) (b : A) : A :=
  match a with
  | Some x => x
  | None => b
  end.

(** Optional chaining [a?.f]: absent when [a] is absent, the (optional)
    field otherwise. *)
Definition chain {A B : Type} (a : option A) (f : A -> option B) : option B :=
  match a with
  | Some x => f x
  | None => None
  end.

Notation "a ?> f" := (chain a f) (at level 50, left associativity).

(** ** Strings *)

Definition LF : string := String (ascii_of_nat 10) EmptyString.

(** ASCII white space removed by [String.prototype.trim]:
    TAB, LF, VT, FF, CR and SPACE. *)
Definition isWhiteSpace (c : ascii) : bool :=
  let n := nat_of_ascii c in
  ((9 <=? n)%nat && (n <=? 13)%nat) || (n =? 32)%nat.

Fixpoint trimStart (s : string) : string :=
  match s with
  | EmptyString => EmptyString
  | String c r => if isWhiteSpace c then trimStart r else s
  end.

Fixpoint trimEnd (s : string) : string :=
  match s with
  | EmptyString => EmptyString
  | String c r =>
      match trimEnd r with
      | EmptyString => if isWhiteSpace c then EmptyString else String c EmptyString
      | r' => String c r'
      end
  end.

Definition trim (s : string) : string := trimEnd (trimStart s).

Definition lowerChar (c : ascii) : ascii :=
  let n := nat_of_ascii c in
  if ((65 <=? n)%nat && (n <=? 90)%nat)%bool then ascii_of_nat (n + 32) else c.

Fixpoint toLowerCase (s : string) : string :=
  match s with
  | EmptyString => EmptyString
  | String c r => String (lowerChar c) (toLowerCase r)
  end.

(** JavaScript truthiness of an optional string: [undefined], [null] and the
    empty string are falsy. *)
Definition truthy (o : option string) : option string :=
  match o with
  | Some s => if String.eqb s EmptyString then None else Some s
  | None => None
  end.

(** ** Configuration snapshot *)

(** [agents.defaults.blockStreamingChunk] and [telegram.draftChunk]. *)
Module ChunkCfg.
Record t : Type := mk {
  minChars : option number;
  maxChars : option number;
  breakPreference : option string
}.
End ChunkCfg.

(** [BlockStreamingCoalesceConfig]. *)
Module CoalesceCfg.
Record t : Type := mk {
  minChars : option number;
  maxChars : option number;
  idleMs : option number
}.
End CoalesceCfg.

(** An entry of [<provider>.accounts]. *)
Module AccountCfg.
Record t : Type := mk {
  blockStreamingCoalesce : option CoalesceCfg.t;
  draftChunk : option ChunkCfg.t
}.
End AccountCfg.

(** The object stored under a provider key ([ProviderBlockStreamingConfig],
    together with the [draftChunk] field the Telegram section carries). *)
Module ProviderCfg.
Record t : Type := mk {
  blockStreamingCoalesce : option CoalesceCfg.t;
  draftChunk : option ChunkCfg.t;
  accounts : option (gmap string AccountCfg.t)
}.
End ProviderCfg.

(** What [cfg[providerKey]] may hold: an object, or some other value
    (for which [typeof v !== "object"] or [!v]). *)
Inductive ConfigValue : Type :=
  | CfgObject (p : ProviderCfg.t)
  | CfgOther.

Module AgentDefaults.
Record t : Type := mk {
  blockStreamingChunk : option ChunkCfg.t;
  blockStreamingCoalesce : option CoalesceCfg.t
}.
End AgentDefaults.

Module Agents.
Record t : Type := mk {
  defaults : option AgentDefaults.t
}.
End Agents.

Module Config.
Record t : Type := mk {
  agents : option Agents.t;
  (** the provider sections, keyed by provider key: [cfg.telegram],
      [cfg.discord], ... *)
  providers : gmap string ConfigValue
}.
End Config.

Abbreviation ClawdbotConfig := Config.t.

(** Reading an object-valued provider section; anything else reads as
    absent. *)
Definition asObject (v : option ConfigValue) : option ProviderCfg.t :=
  match v with
  | Some (CfgObject p) => Some p
  | _ => None
  end.

(** ** Provider plugins *)

Module Plugin.
Record Outbound : Type := mkOutbound {
  textChunkLimit : option number
}.
Record CoalesceDefaults : Type := mkCoalesceDefaults {
  minChars : option number;
  idleMs : option number
}.
Record Streaming : Type := mkStreaming {
  blockStreamingCoalesceDefaults : option CoalesceDefaults
}.
Record t : Type := mk {
  outbound : option Outbound;
  streaming : option Streaming
}.
End Plugin.

(** ** Results *)

Module Chunking.
Record t : Type := mk {
  minChars : number;
  maxChars : number;
  breakPreference : string
}.
End Chunking.

Module BlockStreamingCoalescing.
Record t : Type := mk {
  minChars : number;
  maxChars : number;
  idleMs : number;
  joiner : string
}.
End BlockStreamingCoalescing.

(** ** Constants *)

Definition DEFAULT_BLOCK_STREAM_MIN : number := 800%Q.
Definition DEFAULT_BLOCK_STREAM_MAX : number := 1200%Q.
Definition DEFAULT_BLOCK_STREAM_COALESCE_IDLE_MS : number := 1000%Q.
Definition DEFAULT_TELEGRAM_DRAFT_STREAM_MIN : number := 200%Q.
Definition DEFAULT_TELEGRAM_DRAFT_STREAM_MAX : number := 800%Q.

(** The [breakPreference] selection shared by both chunking resolvers:
    ["newline"] and ["sentence"] are kept, anything else is ["paragraph"]. *)
Definition pickBreakPreference (raw : option string) : string :=
  match raw with
  | Some s =>
      if (String.eqb s "newline" || String.eqb s "sentence")%bool
      then s else "paragraph"%string
  | None => "paragraph"%string
  end.

(** ** Collaborators

    What the module imports from the rest of the code base. *)
Class Collaborators : Type := {
  (** [PROVIDER_IDS] of providers/registry. *)
  PROVIDER_IDS : list string;
  (** [INTERNAL_MESSAGE_PROVIDER] of utils/message-provider. *)
  INTERNAL_MESSAGE_PROVIDER : string;
  (** [normalizeProviderId] and [getProviderPlugin] of providers/plugins. *)
  normalizeProviderId : string -> option string;
  getProviderPlugin : string -> option Plugin.t;
  (** [normalizeAccountId] of routing/session-key. *)
  normalizeAccountId : option string -> string;
  (** [resolveTextChunkLimit] of auto-reply/chunk: configuration, provider
      key, account id and the [fallbackLimit] option; it returns an
      integer. *)
  resolveTextChunkLimit :
    option ClawdbotConfig -> option string -> option string ->
    option number -> Z
}.

(** The same collaborators with another text-limit resolver. *)
Definition withTextLimit (env : Collaborators)
    (resolver : option ClawdbotConfig -> option string -> option string ->
                option number -> Z) : Collaborators := {|
  PROVIDER_IDS := @PROVIDER_IDS env;
  INTERNAL_MESSAGE_PROVIDER := @INTERNAL_MESSAGE_PROVIDER env;
  normalizeProviderId := @normalizeProviderId env;
  getProviderPlugin := @getProviderPlugin env;
  normalizeAccountId := @normalizeAccountId env;
  resolveTextChunkLimit := resolver
|}.

(** ** A concrete environment

    An instance of [Collaborators], on which the
    resolvers can be run: a small provider registry, a plugin table with one
    outbound limit and one set of streaming defaults, an account normaliser
    that trims and lowercases, and a text-limit resolver with a fixed
    answer.  Its contents are illustrative: the registry and the plugin
    table of the code base live in other modules. *)
Module Sample.

Definition providerIds : list string :=
  ["telegram"; "whatsapp"; "discord"; "slack"; "signal"; "imessage"]%string.

Definition internalProvider : string := "webchat".

Definition providerId (raw : string) : option string :=
  if bool_decide (raw ∈ providerIds) then Some raw else None.

Definition plugin (id : string) : option Plugin.t :=
  if String.eqb id "telegram" then
    Some (Plugin.mk (Some (Plugin.mkOutbound (Some 4000%Q))) None)
  else if String.eqb id "discord" then
    Some (Plugin.mk
            (Some (Plugin.mkOutbound (Some 2000%Q)))
            (Some (Plugin.mkStreaming
                     (Some (Plugin.mkCoalesceDefaults
                              (Some 1500%Q) (Some 1000%Q))))))
  else None.

Definition accountKey (accountId : option string) : string :=
  match accountId with
  | Some raw =>
      let cleaned := toLowerCase (trim raw) in
      if String.eqb cleaned EmptyString then "default"%string else cleaned
  | None => "default"%string
  end.

Definition fixedLimit (limit : Z)
    : option ClawdbotConfig -> option string -> option string ->
      option number -> Z :=
  fun _ _ _ _ => limit.

Definition env (limit : Z) : Collaborators := {|
  PROVIDER_IDS := providerIds;
  INTERNAL_MESSAGE_PROVIDER := internalProvider;
  normalizeProviderId := providerId;
  getProviderPlugin := plugin;
  normalizeAccountId := accountKey;
  resolveTextChunkLimit := fixedLimit limit
|}.

(** Account override [{idleMs: 50}] next to a provider-level
    [{minChars: 300}] on the Telegram section. *)
Definition shadowedAccount : AccountCfg.t :=
  AccountCfg.mk (Some (CoalesceCfg.mk None None (Some 50%Q))) None.

Definition shadowedProvider : ProviderCfg.t :=
  ProviderCfg.mk
    (Some (CoalesceCfg.mk (Some 300%Q) None None))
    None
    (Some {[ "default"%string := shadowedAccount ]}).

Definition shadowedCfg : ClawdbotConfig :=
  Config.mk None {[ "telegram"%string := CfgObject shadowedProvider ]}.

(** An account entry without a coalescing block of its own. *)
Definition plainAccount : AccountCfg.t := AccountCfg.mk None None.

Definition inheritingProvider : ProviderCfg.t :=
  ProviderCfg.mk
    (Some (CoalesceCfg.mk (Some 300%Q) None None))
    None
    (Some {[ "default"%string := plainAccount ]}).

Definition inheritingCfg : ClawdbotConfig :=
  Config.mk
    (Some (Agents.mk (Some (AgentDefaults.mk None
       (Some (CoalesceCfg.mk (Some 100%Q) (Some 900%Q) (Some 10%Q)))))))
    {[ "telegram"%string := CfgObject inheritingProvider ]}.

(** [agents.defaults.blockStreamingChunk = {maxChars: 1200}]. *)
Definition chunkMaxCfg : ClawdbotConfig :=
  Config.mk
    (Some (Agents.mk (Some (AgentDefaults.mk
       (Some (ChunkCfg.mk None (Some 1200%Q) None))
       None))))
    ∅.

(** Fractional and out-of-range chunk settings. *)
Definition fractionalCfg : ClawdbotConfig :=
  Config.mk
    (Some (Agents.mk (Some (AgentDefaults.mk
       (Some (ChunkCfg.mk (Some (7 # 2)%Q) (Some (-5 # 3)%Q) (Some "word"%string)))
       (Some (CoalesceCfg.mk (Some (5 # 2)%Q) None (Some (-3 # 2)%Q)))))))
    ∅.

(** A Telegram section whose value is not an object, next to an
    agent-level coalescing default. *)
Definition scalarSectionCfg : ClawdbotConfig :=
  Config.mk
    (Some (Agents.mk (Some (AgentDefaults.mk None
       (Some (CoalesceCfg.mk (Some 100%Q) (Some 900%Q) (Some 10%Q)))))))
    {[ "telegram"%string := CfgOther ]}.

(** Account-level [draftChunk] next to a provider-level one. *)
Definition draftBlock : ChunkCfg.t :=
  ChunkCfg.mk None (Some 600%Q) (Some "sentence"%string).

Definition draftCfg : ClawdbotConfig :=
  Config.mk None
    {[ "telegram"%string :=
         CfgObject
           (ProviderCfg.mk None
              (Some (ChunkCfg.mk (Some 50%Q) (Some 300%Q) None))
              (Some {[ "default"%string := AccountCfg.mk None (Some draftBlock) ]})) ]}.

(** The chunking resolved from [chunkMaxCfg] under the hard limit 500,
    written back as configuration. *)
Definition resolvedBackCfg : ClawdbotConfig :=
  Config.mk
    (Some (Agents.mk (Some (AgentDefaults.mk
       (Some (ChunkCfg.mk (Some 500%Q) (Some 500%Q) (Some "paragraph"%string)))
       None))))
    ∅.

End Sample.

(** * Script and branch commands

    Shallow embedding of auto-reply/reply/commands-scripts.ts:
    [CLAWD_SCRIPT_COMMANDS], [handleScriptCommand] and [handleBranchCommand].

    The handlers act on the file system and start processes.  A call is a
    function from the state of the world before it ([World]) and from what
    the system answers during it ([Sys]: the clock, [process.env.HOME],
    whether [spawn] throws, how the executed script ends, what git prints)
    to the outcome of the promise and the world after it.

    - [fs.statSync] throws exactly when the file is absent;
      [fs.writeFileSync] and [fs.unlinkSync] on the lock file succeed, and a
      write stamps the file with the time of the call.
    - Times are integers (milliseconds).
    - The read-only git query of [handleBranchCommand] is an answer of
      [Sys], not an entry of the process log.
    - [process.env.HOME] holds no dollar sign (no replacement pattern of
      [String.prototype.replace]). *)
Module CommandsScripts.

Record ScriptDef : Type := mkScript {
  path : string;
  restart : bool
}.

Definition CLAWD_SCRIPT_COMMANDS : list (string * ScriptDef) := [
  ("/update", mkScript "~/clawd-scripts/update.sh" true);
  ("/restart", mkScript "~/clawd-scripts/restart.sh" true);
  ("/revert", mkScript "~/clawd-scripts/revert.sh" true);
  ("/push", mkScript "~/clawd-scripts/push.sh" false);
  ("/git-status", mkScript "~/clawd-scripts/git-status.sh" false);
  ("/doctor", mkScript "~/clawd-scripts/doctor.sh" false);
  ("/logs", mkScript "~/clawd-scripts/logs.sh" false);
  ("/crons", mkScript "~/clawd-scripts/crons.sh" false);
  ("/copilot-models", mkScript "~/clawd-scripts/models.sh" false);
  ("/clawd-update", mkScript "~/clawd-scripts/update.sh" true);
  ("/clawd-restart", mkScript "~/clawd-scripts/restart.sh" true);
  ("/clawd-revert", mkScript "~/clawd-scripts/revert.sh" true);
  ("/clawd-push", mkScript "~/clawd-scripts/push.sh" false);
  ("/clawd-git-status", mkScript "~/clawd-scripts/git-status.sh" false);
  ("/clawd-doctor", mkScript "~/clawd-scripts/doctor.sh" false);
  ("/clawd-logs", mkScript "~/clawd-scripts/logs.sh" false)
]%string.

(** The property names an object literal inherits from [Object.prototype]:
    indexing the table with one of them yields a function or an object,
    which is truthy and has no [path]. *)
Definition inheritedKeys : list string := [
  "constructor"; "__proto__"; "hasOwnProperty"; "isPrototypeOf";
  "propertyIsEnumerable"; "toLocaleString"; "toString"; "valueOf";
  "__defineGetter__"; "__defineSetter__"; "__lookupGetter__";
  "__lookupSetter__"
]%string.

Inductive Lookup : Type :=
  | Own (def : ScriptDef)
  | Inherited
  | Absent.

Fixpoint assoc (key : string) (table : list (string * ScriptDef))
    : option ScriptDef :=
  match table with
  | [] => None
  | (k, def) :: rest => if String.eqb key k then Some def else assoc key rest
  end.

(** [CLAWD_SCRIPT_COMMANDS[key]] *)
Definition lookupScript (key : string) : Lookup :=
  match assoc key CLAWD_SCRIPT_COMMANDS with
  | Some def => Own def
  | None => if existsb (String.eqb key) inheritedKeys then Inherited else Absent
  end.

Record Command : Type := mkCommand {
  commandBodyNormalized : string;
  isAuthorizedSender : bool;
  senderId : option string
}.

Record MsgContext : Type := mkContext {
  OriginatingTo : option string;
  SenderId : option string
}.

Record Params : Type := mkParams {
  command : Command;
  ctx : MsgContext
}.

(** [CommandHandlerResult]; [reply] is the text of the reply, if any. *)
Record CommandHandlerResult : Type := mkResult {
  shouldContinue : bool;
  reply : option string
}.

(** How the promise of a handler ends. *)
Inductive Outcome : Type :=
  | Returned (result : option CommandHandlerResult)
  | Rejected.

Record FileStat : Type := mkStat {
  mtimeMs : Z;
  data : string
}.

Record World : Type := mkWorld {
  files : gmap string FileStat;
  (** detached processes started by [spawn]: command and arguments *)
  spawned : list (string * list string);
  (** commands run to completion by [execAsync] *)
  executed : list string;
  (** messages passed to [logVerbose] *)
  logged : list string
}.

Inductive ExecOutcome : Type :=
  | ExecResolved (stdout stderr : string)
  | ExecRejected (stdout stderr message : option string).

Record Sys : Type := mkSys {
  (** [Date.now()] *)
  now : Z;
  (** [new Date().toISOString()] *)
  isoNow : string;
  (** [process.env.HOME] *)
  HOME : option string;
  spawnThrows : bool;
  execOutcome : ExecOutcome;
  (** output of [git rev-parse --abbrev-ref HEAD]; absent when it throws *)
  gitHead : option string
}.

(** [a || b] on strings. *)
Definition orString (a : option string) (b : string) : string :=
  orDefault (truthy a) b.

(** [s.replace("~", home)]: the first tilde only. *)
Fixpoint replaceTilde (home s : string) : string :=
  match s with
  | EmptyString => EmptyString
  | String c r =>
      if Ascii.eqb c "~"%char then (home ++ r)%string
      else String c (replaceTilde home r)
  end.

Definition ESC : ascii := ascii_of_nat 27.

(** [[0-9;]] *)
Definition isAnsiParam (c : ascii) : bool :=
  let n := nat_of_ascii c in
  ((48 <=? n)%nat && (n <=? 57)%nat) || (n =? 59)%nat.

(** Length of the longest prefix of [[0-9;]] characters when an [m]
    follows it. *)
Fixpoint paramsThenM (s : string) : option nat :=
  match s with
  | EmptyString => None
  | String c r =>
      if isAnsiParam c then option_map S (paramsThenM r)
      else if Ascii.eqb c "m"%char then Some O
      else None
  end.

(** Length of the match of [/\x1b\[[0-9;]*m/] at the start of [s]. *)
Definition ansiMatch (s : string) : option nat :=
  match s with
  | String e (String b r) =>
      if (Ascii.eqb e ESC && Ascii.eqb b "["%char)%bool
      then option_map (fun n => (n + 3)%nat) (paramsThenM r)
      else None
  | _ => None
  end.

(** [s.replace(/\x1b\[[0-9;]*m/g, "")]: scanning from the left, a match is
    skipped and any other character kept; [skip] is what remains of the
    match being skipped. *)
Fixpoint stripAnsiFrom (skip : nat) (s : string) : string :=
  match s with
  | EmptyString => EmptyString
  | String c r =>
      match skip with
      | S k => stripAnsiFrom k r
      | O =>
          match ansiMatch s with
          | Some n => stripAnsiFrom (Nat.pred n) r
          | None => String c (stripAnsiFrom O r)
          end
      end
  end.

Definition stripAnsi (s : string) : string := stripAnsiFrom O s.

(** [s.slice(0, 4000)] *)
Definition slice4000 (s : string) : string := substring 0 4000 s.

Fixpoint dropChars (n : nat) (s : string) : string :=
  match n, s with
  | S k, String _ r => dropChars k r
  | _, _ => s
  end.

Fixpoint lastChar (s : string) : option ascii :=
  match s with
  | EmptyString => None
  | String c EmptyString => Some c
  | String _ r => lastChar r
  end.

(** Line terminators, which [.] does not match. *)
Definition isLineTerminator (c : ascii) : bool :=
  let n := nat_of_ascii c in ((n =? 10)%nat || (n =? 13)%nat)%bool.

Fixpoint hasLineTerminator (s : string) : bool :=
  match s with
  | EmptyString => false
  | String c r => (isLineTerminator c || hasLineTerminator r)%bool
  end.

(** [body.match(/^\/branch(?:\s+(.+))?$/)]: absent when there is no match,
    otherwise the capture group (absent when the optional part is empty).
    After the greedy white space the group is the rest of the body, which
    must hold no line terminator; when the rest is empty the white space
    gives its last character back to the group. *)
Definition branchCommandMatch (body : string) : option (option string) :=
  if String.prefix "/branch" body then
    let rest := dropChars 7 body in
    match rest with
    | EmptyString => Some None
    | String _ _ =>
        let tail := trimStart rest in
        if (String.length tail =? String.length rest)%nat then None
        else
          match tail with
          | String _ _ =>
              if hasLineTerminator tail then None else Some (Some tail)
          | EmptyString =>
              match lastChar rest with
              | Some c =>
                  if ((2 <=? String.length rest)%nat
                      && negb (isLineTerminator c))%bool
                  then Some (Some (String c EmptyString))
                  else None
              | None => None
              end
          end
    end
  else None.

Definition SCRIPT_LOCK : string := "/tmp/clawd-command.lock".
Definition BRANCH_LOCK : string := "/tmp/clawdbot-branch-switch.lock".
Definition BRANCH_SWITCH_SCRIPT : string := "/home/azureuser/clawdbot-branch-switch.sh".

(** The lock check of both handlers: the file exists and is younger than
    five minutes. *)
Definition lockIsFresh (sys : Sys) (w : World) (lockFile : string) : bool :=
  match files w !! lockFile with
  | Some stat => now sys - mtimeMs stat <? 300000
  | None => false
  end.

Definition writeFile (sys : Sys) (w : World) (file contents : string) : World :=
  mkWorld (<[file := mkStat (now sys) contents]> (files w))
          (spawned w) (executed w) (logged w).

Definition unlink (w : World) (file : string) : World :=
  mkWorld (delete file (files w)) (spawned w) (executed w) (logged w).

Definition spawnDetached (w : World) (cmd : string) (args : list string) : World :=
  mkWorld (files w) (spawned w ++ [(cmd, args)]) (executed w) (logged w).

Definition execute (w : World) (cmd : string) : World :=
  mkWorld (files w) (spawned w) (executed w ++ [cmd]) (logged w).

Definition logVerbose (w : World) (message : string) : World :=
  mkWorld (files w) (spawned w) (executed w) (logged w ++ [message]).

Definition replyWith (text : string) : Outcome :=
  Returned (Some (mkResult false (Some text))).

(** The fixed reply texts. *)
Definition restartBusyText : string :=
  "⏳ A restart operation is already in progress. Please wait.".
Definition restartStartedText : string :=
  "🔄 Process initiated in background. You will receive a Telegram notification when complete.".
Definition spawnFailedText : string :=
  "❌ Failed to spawn background process.".
Definition noOutputText : string := "✅ Command completed (no output).".
Definition commandFailedText : string := "❌ Command failed:".
Definition branchBusyText : string :=
  "⏳ A branch switch is already in progress. Please wait.".
Definition alreadyOnMainText : string := "Already on `main` branch.".
Definition switchingToMainText : string :=
  "Switching to `main` branch. I'll notify you when complete.".

(** [scriptDef.path.replace("~", process.env.HOME || "/home/azureuser")] *)
Definition expandedPathOf (sys : Sys) (def : ScriptDef) : string :=
  replaceTilde (orString (HOME sys) "/home/azureuser") (path def).

(** [!scriptDef] *)
Definition isAbsent (l : Lookup) : bool :=
  match l with
  | Absent => true
  | _ => false
  end.

Definition handleScriptCommand
    (sys : Sys) (w : World) (params : Params) (allowTextCommands : bool)
    : Outcome * World :=
  let cmd := command params in
  let scriptDef := lookupScript (commandBodyNormalized cmd) in
  if (negb allowTextCommands || isAbsent scriptDef)%bool then (Returned None, w)
  else if negb (isAuthorizedSender cmd) then
    (Returned (Some (mkResult false None)),
     logVerbose w
       ("Ignoring " ++ commandBodyNormalized cmd
        ++ " from unauthorized sender: "
        ++ orString (senderId cmd) "<unknown>")%string)
  else
    match scriptDef with
    | Own def =>
        let expandedPath := expandedPathOf sys def in
        let lockFile := SCRIPT_LOCK in
        if restart def then
          if lockIsFresh sys w lockFile then
            (replyWith restartBusyText, w)
          else
            let w1 :=
              writeFile sys w lockFile
                (commandBodyNormalized cmd ++ " started at " ++ isoNow sys)%string in
            if spawnThrows sys then
              (replyWith spawnFailedText,
               unlink w1 lockFile)
            else
              (replyWith restartStartedText,
               spawnDetached w1 expandedPath [])
        else
          let w1 := execute w expandedPath in
          match execOutcome sys with
          | ExecResolved stdout stderr =>
              let output :=
                trim (stdout ++
                      (if String.eqb stderr EmptyString then EmptyString
                       else LF ++ stderr))%string in
              let cleanOutput := slice4000 (stripAnsi output) in
              (replyWith
                 (orString (Some cleanOutput) noOutputText),
               w1)
          | ExecRejected stdout stderr message =>
              let errorOutput :=
                orString
                  (Some (orString stdout EmptyString
                         ++ orString stderr EmptyString)%string)
                  (orString message "Unknown error") in
              let cleanError := slice4000 (stripAnsi errorOutput) in
              (replyWith (commandFailedText ++ LF ++ cleanError)%string, w1)
          end
    | _ =>
        (* an inherited property: [scriptDef.path] is undefined and
           [.replace] throws *)
        (Rejected, w)
    end.

Definition handleBranchCommand
    (sys : Sys) (w : World) (params : Params) (allowTextCommands : bool)
    : Outcome * World :=
  let cmd := command params in
  let branchMatch := branchCommandMatch (commandBodyNormalized cmd) in
  let mainCommandMatch := String.eqb (commandBodyNormalized cmd) "/main" in
  if (negb allowTextCommands
      || (negb (bool_decide (is_Some branchMatch)) && negb mainCommandMatch))%bool
  then (Returned None, w)
  else if negb (isAuthorizedSender cmd) then
    (Returned (Some (mkResult false None)),
     logVerbose w
       ("Ignoring branch command from unauthorized sender: "
        ++ orString (senderId cmd) "<unknown>")%string)
  else
    let lockFile := BRANCH_LOCK in
    if lockIsFresh sys w lockFile then
      (replyWith branchBusyText, w)
    else
      let chatId :=
        orString (OriginatingTo (ctx params))
                 (orString (SenderId (ctx params)) EmptyString) in
      let currentBranch :=
        match gitHead sys with
        | Some out => trim out
        | None => "main"%string
        end in
      if mainCommandMatch then
        if String.eqb currentBranch "main" then
          (replyWith alreadyOnMainText, w)
        else if spawnThrows sys then (Rejected, w)
        else
          (replyWith switchingToMainText,
           spawnDetached w BRANCH_SWITCH_SCRIPT ["main"%string; chatId; currentBranch])
      else
        match branchMatch with
        | Some group =>
            let targetBranch := option_map trim group in
            match truthy targetBranch with
            | None =>
                (replyWith
                   ("Current branch: `" ++ currentBranch ++ "`" ++ LF ++ LF
                    ++ "Usage:" ++ LF
                    ++ "- `/branch <name>` - switch to branch" ++ LF
                    ++ "- `/main` - switch to main branch")%string,
                 w)
            | Some target =>
                if spawnThrows sys then (Rejected, w)
                else
                  (replyWith
                     ("Switching to branch `" ++ target
                      ++ "`. I'll notify you when complete.")%string,
                   spawnDetached w BRANCH_SWITCH_SCRIPT
                     [target; chatId; currentBranch])
            end
        | None => (Returned None, w)
        end.

(** [ctx.OriginatingTo || ctx.SenderId || ""] *)
Definition chatIdOf (params : Params) : string :=
  orString (OriginatingTo (ctx params))
           (orString (SenderId (ctx params)) EmptyString).

(** The branch git reports, trimmed; ["main"] when the query throws. *)
Definition currentBranchOf (sys : Sys) : string :=
  match gitHead sys with
  | Some out => trim out
  | None => "main"%string
  end.

(** What a call of [handleScriptCommand] does, case by case: the outcome
    and the world after it. *)
Inductive ScriptStep (sys : Sys) (w : World) (params : Params) (allow : bool)
    : Outcome * World -> Prop :=
  | StepDeclined :
      allow = false \/
        lookupScript (commandBodyNormalized (command params)) = Absent ->
      ScriptStep sys w params allow (Returned None, w)
  | StepUnauthorized message :
      allow = true ->
      lookupScript (commandBodyNormalized (command params)) <> Absent ->
      isAuthorizedSender (command params) = false ->
      ScriptStep sys w params allow
        (Returned (Some (mkResult false None)), logVerbose w message)
  | StepInherited :
      allow = true ->
      isAuthorizedSender (command params) = true ->
      lookupScript (commandBodyNormalized (command params)) = Inherited ->
      ScriptStep sys w params allow (Rejected, w)
  | StepBusy def :
      allow = true ->
      isAuthorizedSender (command params) = true ->
      lookupScript (commandBodyNormalized (command params)) = Own def ->
      restart def = true ->
      lockIsFresh sys w SCRIPT_LOCK = true ->
      ScriptStep sys w params allow (replyWith restartBusyText, w)
  | StepSpawnFailed def contents :
      allow = true ->
      isAuthorizedSender (command params) = true ->
      lookupScript (commandBodyNormalized (command params)) = Own def ->
      restart def = true ->
      lockIsFresh sys w SCRIPT_LOCK = false ->
      spawnThrows sys = true ->
      ScriptStep sys w params allow
        (replyWith spawnFailedText,
         unlink (writeFile sys w SCRIPT_LOCK contents) SCRIPT_LOCK)
  | StepSpawned def :
      allow = true ->
      isAuthorizedSender (command params) = true ->
      lookupScript (commandBodyNormalized (command params)) = Own def ->
      restart def = true ->
      lockIsFresh sys w SCRIPT_LOCK = false ->
      spawnThrows sys = false ->
      ScriptStep sys w params allow
        (replyWith restartStartedText,
         spawnDetached
           (writeFile sys w SCRIPT_LOCK
              (commandBodyNormalized (command params) ++ " started at "
               ++ isoNow sys)%string)
           (expandedPathOf sys def) [])
  | StepExecuted def text :
      allow = true ->
      isAuthorizedSender (command params) = true ->
      lookupScript (commandBodyNormalized (command params)) = Own def ->
      restart def = false ->
      text <> EmptyString ->
      (String.length text <= 4096)%nat ->
      ScriptStep sys w params allow
        (replyWith text, execute w (expandedPathOf sys def)).

(** What a call of [handleBranchCommand] does, case by case. *)
Inductive BranchStep (sys : Sys) (w : World) (params : Params) (allow : bool)
    : Outcome * World -> Prop :=
  | BranchDeclined :
      allow = false \/
        (branchCommandMatch (commandBodyNormalized (command params)) = None /\
         commandBodyNormalized (command params) <> "/main"%string) ->
      BranchStep sys w params allow (Returned None, w)
  | BranchUnauthorized message :
      allow = true ->
      isAuthorizedSender (command params) = false ->
      BranchStep sys w params allow
        (Returned (Some (mkResult false None)), logVerbose w message)
  | BranchBusy :
      allow = true ->
      isAuthorizedSender (command params) = true ->
      lockIsFresh sys w BRANCH_LOCK = true ->
      BranchStep sys w params allow (replyWith branchBusyText, w)
  | BranchAlreadyMain :
      allow = true ->
      isAuthorizedSender (command params) = true ->
      lockIsFresh sys w BRANCH_LOCK = false ->
      commandBodyNormalized (command params) = "/main"%string ->
      currentBranchOf sys = "main"%string ->
      BranchStep sys w params allow (replyWith alreadyOnMainText, w)
  | BranchSpawnThrows :
      allow = true ->
      isAuthorizedSender (command params) = true ->
      lockIsFresh sys w BRANCH_LOCK = false ->
      spawnThrows sys = true ->
      BranchStep sys w params allow (Rejected, w)
  | BranchToMain :
      allow = true ->
      isAuthorizedSender (command params) = true ->
      lockIsFresh sys w BRANCH_LOCK = false ->
      commandBodyNormalized (command params) = "/main"%string ->
      currentBranchOf sys <> "main"%string ->
      spawnThrows sys = false ->
      BranchStep sys w params allow
        (replyWith switchingToMainText,
         spawnDetached w BRANCH_SWITCH_SCRIPT
           ["main"%string; chatIdOf params; currentBranchOf sys])
  | BranchUsage group text :
      allow = true ->
      isAuthorizedSender (command params) = true ->
      lockIsFresh sys w BRANCH_LOCK = false ->
      branchCommandMatch (commandBodyNormalized (command params)) = Some group ->
      truthy (option_map trim group) = None ->
      BranchStep sys w params allow (replyWith text, w)
  | BranchSwitch group target :
      allow = true ->
      isAuthorizedSender (command params) = true ->
      lockIsFresh sys w BRANCH_LOCK = false ->
      branchCommandMatch (commandBodyNormalized (command params)) = Some (Some group) ->
      target = trim group ->
      target <> EmptyString ->
      spawnThrows sys = false ->
      BranchStep sys w params allow
        (replyWith
           ("Switching to branch `" ++ target
            ++ "`. I'll notify you when complete.")%string,
         spawnDetached w BRANCH_SWITCH_SCRIPT
           [target; chatIdOf params; currentBranchOf sys]).

(** One incoming message: what the system answers while it is handled, the
    message and whether text commands are allowed. *)
Definition Call : Type := (Sys * Params * bool)%type.

(** [handleScriptCommand] on a sequence of messages, one after the other. *)
Fixpoint runScriptCommands (calls : list Call) (w : World) : World :=
  match calls with
  | [] => w
  | (sys, params, allow) :: rest =>
      runScriptCommands rest (snd (handleScriptCommand sys w params allow))
  end.

(** [handleBranchCommand] on a sequence of messages. *)
Fixpoint runBranchCommands (calls : list Call) (w : World) : World :=
  match calls with
  | [] => w
  | (sys, params, allow) :: rest =>
      runBranchCommands rest (snd (handleBranchCommand sys w params allow))
  end.

(** A string of white space only. *)
Fixpoint allWhiteSpace (s : string) : bool :=
  match s with
  | EmptyString => true
  | String c r => (isWhiteSpace c && allWhiteSpace r)%bool
  end.

Fixpoint hasEscape (s : string) : bool :=
  match s with
  | EmptyString => false
  | String c r => (Ascii.eqb c ESC || hasEscape r)%bool
  end.

Fixpoint allAnsiParams (s : string) : bool :=
  match s with
  | EmptyString => true
  | String c r => (isAnsiParam c && allAnsiParams r)%bool
  end.

(** The first character, if any, is not white space. *)
Definition startsClean (s : string) : Prop :=
  match s with
  | EmptyString => True
  | String c _ => isWhiteSpace c = false
  end.

(** A colour escape sequence with the parameters [params]. *)
Definition sgr (params : string) : string :=
  (String ESC "[" ++ params ++ "m")%string.

End CommandsScripts.

(** Concrete messages, worlds and system answers for the command
    handlers. *)
Module ScriptSample.
Import CommandsScripts.

(** The script prints a coloured word and a warning. *)
Definition sys (time : Z) (throws : bool) : Sys :=
  mkSys time "2026-01-01T00:00:00.000Z" (Some "/home/bot"%string) throws
    (ExecResolved ("  " ++ sgr "1;32" ++ "ok" ++ sgr "0") "warn")
    (Some ("feature-x" ++ LF)%string).

(** Git reports [main]. *)
Definition sysOnMain (time : Z) : Sys :=
  mkSys time "2026-01-01T00:00:00.000Z" None false
    (ExecRejected None None None) (Some ("main" ++ LF)%string).

Definition emptyWorld : World := mkWorld ∅ [] [] [].

(** A restart lock written at time 1000. *)
Definition lockedWorld : World :=
  mkWorld {[ SCRIPT_LOCK := mkStat 1000 "/update started at some time" ]}
          [] [] [].

Definition message (body : string) (authorized : bool) : Params :=
  mkParams (mkCommand body authorized (Some "42"%string))
           (mkContext (Some "chat-7"%string) (Some "42"%string)).

End ScriptSample.

(** * The resolvers over IEEE numbers

    The resolvers of auto-reply/reply/block-streaming.ts once more, with a
    TypeScript [number] that may also be NaN or an infinity and with a
    text-limit resolver that returns a [number].  [Math.floor], [Math.max]
    and [Math.min] are exact on doubles, so a finite double is modelled by
    the rational it denotes.  This is the model in which the reach of the
    statements about integer results is delimited. *)
Module Ieee.

Inductive jsNumber : Type :=
  | Finite (q : Q)
  | PosInfinity
  | NegInfinity
  | NaN.

Definition ofZ (z : Z) : jsNumber := Finite (inject_Z z).

(** [Math.floor]: NaN and the infinities are returned as they are. *)
Definition Math_floor (x : jsNumber) : jsNumber :=
  match x with
  | Finite q => Finite (inject_Z (Qfloor q))
  | _ => x
  end.

(** [Math.max]: NaN as soon as an argument is NaN. *)
Definition Math_max (a b : jsNumber) : jsNumber :=
  match a, b with
  | NaN, _ | _, NaN => NaN
  | PosInfinity, _ | _, PosInfinity => PosInfinity
  | NegInfinity, x | x, NegInfinity => x
  | Finite p, Finite q => Finite (if Qle_bool p q then q else p)
  end.

(** [Math.min]: NaN as soon as an argument is NaN. *)
Definition Math_min (a b : jsNumber) : jsNumber :=
  match a, b with
  | NaN, _ | _, NaN => NaN
  | NegInfinity, _ | _, NegInfinity => NegInfinity
  | PosInfinity, x | x, PosInfinity => x
  | Finite p, Finite q => Finite (if Qle_bool p q then p else q)
  end.

Module ChunkCfg.
Record t : Type := mk {
  minChars : option jsNumber;
  maxChars : option jsNumber;
  breakPreference : option string
}.
End ChunkCfg.

Module CoalesceCfg.
Record t : Type := mk {
  minChars : option jsNumber;
  maxChars : option jsNumber;
  idleMs : option jsNumber
}.
End CoalesceCfg.

Module AccountCfg.
Record t : Type := mk {
  blockStreamingCoalesce : option CoalesceCfg.t;
  draftChunk : option ChunkCfg.t
}.
End AccountCfg.

Module ProviderCfg.
Record t : Type := mk {
  blockStreamingCoalesce : option CoalesceCfg.t;
  draftChunk : option ChunkCfg.t;
  accounts : option (gmap string AccountCfg.t)
}.
End ProviderCfg.

Inductive ConfigValue : Type :=
  | CfgObject (p : ProviderCfg.t)
  | CfgOther.

Module AgentDefaults.
Record t : Type := mk {
  blockStreamingChunk : option ChunkCfg.t;
  blockStreamingCoalesce : option CoalesceCfg.t
}.
End AgentDefaults.

Module Agents.
Record t : Type := mk {
  defaults : option AgentDefaults.t
}.
End Agents.

Module Config.
Record t : Type := mk {
  agents : option Agents.t;
  providers : gmap string ConfigValue
}.
End Config.

Definition asObject (v : option ConfigValue) : option ProviderCfg.t :=
  match v with
  | Some (CfgObject p) => Some p
  | _ => None
  end.

Module Plugin.
Record Outbound : Type := mkOutbound {
  textChunkLimit : option jsNumber
}.
Record CoalesceDefaults : Type := mkCoalesceDefaults {
  minChars : option jsNumber;
  idleMs : option jsNumber
}.
Record Streaming : Type := mkStreaming {
  blockStreamingCoalesceDefaults : option CoalesceDefaults
}.
Record t : Type := mk {
  outbound : option Outbound;
  streaming : option Streaming
}.
End Plugin.

Module Chunking.
Record t : Type := mk {
  minChars : jsNumber;
  maxChars : jsNumber;
  breakPreference : string
}.
End Chunking.

Module BlockStreamingCoalescing.
Record t : Type := mk {
  minChars : jsNumber;
  maxChars : jsNumber;
  idleMs : jsNumber;
  joiner : string
}.
End BlockStreamingCoalescing.

Definition DEFAULT_BLOCK_STREAM_MIN : jsNumber := ofZ 800.
Definition DEFAULT_BLOCK_STREAM_MAX : jsNumber := ofZ 1200.
Definition DEFAULT_BLOCK_STREAM_COALESCE_IDLE_MS : jsNumber := ofZ 1000.
Definition DEFAULT_TELEGRAM_DRAFT_STREAM_MIN : jsNumber := ofZ 200.
Definition DEFAULT_TELEGRAM_DRAFT_STREAM_MAX : jsNumber := ofZ 800.

(** The imports of the module; [resolveTextChunkLimit] returns a
    [number]. *)
Class Collaborators : Type := {
  PROVIDER_IDS : list string;
  INTERNAL_MESSAGE_PROVIDER : string;
  normalizeProviderId : string -> option string;
  getProviderPlugin : string -> option Plugin.t;
  normalizeAccountId : option string -> string;
  resolveTextChunkLimit :
    option Config.t -> option string -> option string ->
    option jsNumber -> jsNumber
}.

Section Resolvers.

Context {env : Collaborators}.

Definition BLOCK_CHUNK_PROVIDERS : gset string :=
  list_to_set (PROVIDER_IDS ++ [INTERNAL_MESSAGE_PROVIDER]).

Definition normalizeChunkProvider (provider : option string) : option string :=
  match truthy provider with
  | None => None
  | Some p =>
      let cleaned := toLowerCase (trim p) in
      if bool_decide (cleaned ∈ BLOCK_CHUNK_PROVIDERS)
      then Some cleaned
      else None
  end.

Definition resolveProviderBlockStreamingCoalesce
    (cfg : option Config.t) (providerKey : option string)
    (accountId : option string) : option CoalesceCfg.t :=
  match cfg, truthy providerKey with
  | Some c, Some key =>
      match asObject (Config.providers c !! key) with
      | None => None
      | Some typed =>
          let normalizedAccountId := normalizeAccountId accountId in
          let accountCfg :=
            ProviderCfg.accounts typed ?> (fun m => m !! normalizedAccountId) in
          orElse (accountCfg ?> AccountCfg.blockStreamingCoalesce)
                 (ProviderCfg.blockStreamingCoalesce typed)
      end
  | _, _ => None
  end.

Definition pluginFor (providerId : option string) : option Plugin.t :=
  match truthy providerId with
  | Some id => getProviderPlugin id
  | None => None
  end.

Definition resolveBlockStreamingChunking
    (cfg : option Config.t) (provider : option string)
    (accountId : option string) : Chunking.t :=
  let providerKey := normalizeChunkProvider provider in
  let providerId :=
    match truthy providerKey with
    | Some k => normalizeProviderId k
    | None => None
    end in
  let providerChunkLimit :=
    pluginFor providerId ?> Plugin.outbound ?> Plugin.textChunkLimit in
  let textLimit :=
    resolveTextChunkLimit cfg providerKey accountId providerChunkLimit in
  let chunkCfg :=
    cfg ?> Config.agents ?> Agents.defaults ?> AgentDefaults.blockStreamingChunk in
  let maxRequested :=
    Math_max (ofZ 1) (Math_floor
      (orDefault (chunkCfg ?> ChunkCfg.maxChars) DEFAULT_BLOCK_STREAM_MAX)) in
  let maxChars := Math_max (ofZ 1) (Math_min maxRequested textLimit) in
  let minFallback := DEFAULT_BLOCK_STREAM_MIN in
  let minRequested :=
    Math_max (ofZ 1) (Math_floor
      (orDefault (chunkCfg ?> ChunkCfg.minChars) minFallback)) in
  let minChars := Math_min minRequested maxChars in
  let breakPreference :=
    pickBreakPreference (chunkCfg ?> ChunkCfg.breakPreference) in
  Chunking.mk minChars maxChars breakPreference.

Definition resolveTelegramDraftStreamingChunking
    (cfg : option Config.t) (accountId : option string) : Chunking.t :=
  let providerKey : option string := Some "telegram"%string in
  let providerChunkLimit :=
    getProviderPlugin "telegram" ?> Plugin.outbound ?> Plugin.textChunkLimit in
  let textLimit :=
    resolveTextChunkLimit cfg providerKey accountId providerChunkLimit in
  let normalizedAccountId := normalizeAccountId accountId in
  let telegram :=
    cfg ?> (fun c => asObject (Config.providers c !! "telegram"%string)) in
  let draftCfg :=
    orElse
      (telegram ?> ProviderCfg.accounts
                ?> (fun m => m !! normalizedAccountId)
                ?> AccountCfg.draftChunk)
      (telegram ?> ProviderCfg.draftChunk) in
  let maxRequested :=
    Math_max (ofZ 1) (Math_floor
      (orDefault (draftCfg ?> ChunkCfg.maxChars)
                 DEFAULT_TELEGRAM_DRAFT_STREAM_MAX)) in
  let maxChars := Math_max (ofZ 1) (Math_min maxRequested textLimit) in
  let minRequested :=
    Math_max (ofZ 1) (Math_floor
      (orDefault (draftCfg ?> ChunkCfg.minChars)
                 DEFAULT_TELEGRAM_DRAFT_STREAM_MIN)) in
  let minChars := Math_min minRequested maxChars in
  let breakPreference :=
    pickBreakPreference (draftCfg ?> ChunkCfg.breakPreference) in
  Chunking.mk minChars maxChars breakPreference.

Definition resolveBlockStreamingCoalescing
    (cfg : option Config.t) (provider : option string)
    (accountId : option string) (chunking : option Chunking.t)
    : option BlockStreamingCoalescing.t :=
  let providerKey := normalizeChunkProvider provider in
  let providerId :=
    match truthy providerKey with
    | Some k => normalizeProviderId k
    | None => None
    end in
  let providerChunkLimit :=
    pluginFor providerId ?> Plugin.outbound ?> Plugin.textChunkLimit in
  let textLimit :=
    resolveTextChunkLimit cfg providerKey accountId providerChunkLimit in
  let providerDefaults :=
    pluginFor providerId ?> Plugin.streaming
                         ?> Plugin.blockStreamingCoalesceDefaults in
  let providerCfg :=
    resolveProviderBlockStreamingCoalesce cfg providerKey accountId in
  let coalesceCfg :=
    orElse providerCfg
      (cfg ?> Config.agents ?> Agents.defaults
           ?> AgentDefaults.blockStreamingCoalesce) in
  let minRequested :=
    Math_max (ofZ 1) (Math_floor
      (orDefault
         (orElse (coalesceCfg ?> CoalesceCfg.minChars)
            (orElse (providerDefaults ?> Plugin.minChars)
                    (option_map Chunking.minChars chunking)))
         DEFAULT_BLOCK_STREAM_MIN)) in
  let maxRequested :=
    Math_max (ofZ 1) (Math_floor
      (orDefault (coalesceCfg ?> CoalesceCfg.maxChars) textLimit)) in
  let maxChars := Math_max (ofZ 1) (Math_min maxRequested textLimit) in
  let minChars := Math_min minRequested maxChars in
  let idleMs :=
    Math_max (ofZ 0) (Math_floor
      (orDefault
         (orElse (coalesceCfg ?> CoalesceCfg.idleMs)
                 (providerDefaults ?> Plugin.idleMs))
         DEFAULT_BLOCK_STREAM_COALESCE_IDLE_MS)) in
  let preference :=
    orDefault (option_map Chunking.breakPreference chunking) "paragraph"%string in
  let joiner :=
    if String.eqb preference "sentence" then " "%string
    else if String.eqb preference "newline" then LF
    else (LF ++ LF)%string in
  Some (BlockStreamingCoalescing.mk minChars maxChars idleMs joiner).

(** *** The values the statements refer to *)

(** What [resolveTextChunkLimit] answers in a general chunking or
    coalescing call. *)
Definition hardLimit
    (cfg : option Config.t) (provider : option string)
    (accountId : option string) : jsNumber :=
  let providerKey := normalizeChunkProvider provider in
  let providerId :=
    match truthy providerKey with
    | Some k => normalizeProviderId k
    | None => None
    end in
  let providerChunkLimit :=
    pluginFor providerId ?> Plugin.outbound ?> Plugin.textChunkLimit in
  resolveTextChunkLimit cfg providerKey accountId providerChunkLimit.

(** What it answers in a Telegram draft call. *)
Definition telegramHardLimit
    (cfg : option Config.t) (accountId : option string) : jsNumber :=
  resolveTextChunkLimit cfg (Some "telegram"%string) accountId
    (getProviderPlugin "telegram" ?> Plugin.outbound ?> Plugin.textChunkLimit).

(** [chunkCfg] of [resolveBlockStreamingChunking]. *)
Definition chunkCfgOf (cfg : option Config.t) : option ChunkCfg.t :=
  cfg ?> Config.agents ?> Agents.defaults ?> AgentDefaults.blockStreamingChunk.

(** [draftCfg] of [resolveTelegramDraftStreamingChunking]. *)
Definition draftCfgOf
    (cfg : option Config.t) (accountId : option string) : option ChunkCfg.t :=
  let telegram :=
    cfg ?> (fun c => asObject (Config.providers c !! "telegram"%string)) in
  orElse
    (telegram ?> ProviderCfg.accounts
              ?> (fun m => m !! normalizeAccountId accountId)
              ?> AccountCfg.draftChunk)
    (telegram ?> ProviderCfg.draftChunk).

(** [coalesceCfg] of [resolveBlockStreamingCoalescing]. *)
Definition coalesceCfgOf
    (cfg : option Config.t) (provider : option string)
    (accountId : option string) : option CoalesceCfg.t :=
  orElse
    (resolveProviderBlockStreamingCoalesce cfg
       (normalizeChunkProvider provider) accountId)
    (cfg ?> Config.agents ?> Agents.defaults
         ?> AgentDefaults.blockStreamingCoalesce).

(** [providerDefaults] of [resolveBlockStreamingCoalescing]. *)
Definition providerDefaultsOf (provider : option string)
    : option Plugin.CoalesceDefaults :=
  let providerKey := normalizeChunkProvider provider in
  let providerId :=
    match truthy providerKey with
    | Some k => normalizeProviderId k
    | None => None
    end in
  pluginFor providerId ?> Plugin.streaming
                       ?> Plugin.blockStreamingCoalesceDefaults.

(** The number the coalescing [minChars] is requested from: configured,
    else plugin default, else the chunking argument's. *)
Definition coalesceMinOf
    (cfg : option Config.t) (provider : option string)
    (accountId : option string) (chunking : option Chunking.t)
    : option jsNumber :=
  orElse (coalesceCfgOf cfg provider accountId ?> CoalesceCfg.minChars)
    (orElse (providerDefaultsOf provider ?> Plugin.minChars)
            (option_map Chunking.minChars chunking)).

(** The number [idleMs] is computed from: configured, else plugin
    default. *)
Definition coalesceIdleOf
    (cfg : option Config.t) (provider : option string)
    (accountId : option string) : option jsNumber :=
  orElse (coalesceCfgOf cfg provider accountId ?> CoalesceCfg.idleMs)
         (providerDefaultsOf provider ?> Plugin.idleMs).

End Resolvers.

(** An integer. *)
Definition isInteger (x : jsNumber) : Prop := exists z : Z, x = ofZ z.

(** [minChars] and [maxChars] are integers with
    [1 <= minChars <= maxChars <= max 1 limit]. *)
Definition wellClamped (minChars maxChars : jsNumber) (limit : Z) : Prop :=
  exists zmin zmax : Z,
    minChars = ofZ zmin /\ maxChars = ofZ zmax /\
    1 <= zmin /\ zmin <= zmax /\ zmax <= Z.max 1 limit.

(** A requested size: an integer that is at least 1, or [Infinity]. *)
Definition requested (x : jsNumber) : Prop :=
  x = PosInfinity \/ exists z : Z, 1 <= z /\ x = ofZ z.

(** A concrete environment whose text-limit resolver has a fixed answer,
    and configurations with unusual numbers. *)
Module Sample.

Definition env (limit : jsNumber) : Collaborators := {|
  PROVIDER_IDS := ["telegram"; "whatsapp"; "discord"]%string;
  INTERNAL_MESSAGE_PROVIDER := "webchat"%string;
  normalizeProviderId := fun raw => Some raw;
  getProviderPlugin := fun _ => None;
  normalizeAccountId := fun accountId => orDefault accountId "default"%string;
  resolveTextChunkLimit := fun _ _ _ _ => limit
|}.

Definition withChunk (block : ChunkCfg.t) : Config.t :=
  Config.mk (Some (Agents.mk (Some (AgentDefaults.mk (Some block) None)))) ∅.

Definition withCoalesce (block : CoalesceCfg.t) : Config.t :=
  Config.mk (Some (Agents.mk (Some (AgentDefaults.mk None (Some block))))) ∅.

(** [blockStreamingChunk = {maxChars: NaN}] *)
Definition nanMaxCfg : Config.t :=
  withChunk (ChunkCfg.mk None (Some NaN) None).

(** [blockStreamingCoalesce = {idleMs: Infinity}] *)
Definition infiniteIdleCfg : Config.t :=
  withCoalesce (CoalesceCfg.mk None None (Some PosInfinity)).

(** [blockStreamingChunk = {minChars: 3.5, maxChars: Infinity}] *)
Definition infiniteMaxCfg : Config.t :=
  withChunk (ChunkCfg.mk (Some (Finite (7 # 2))) (Some PosInfinity) None).

End Sample.

End Ieee.

Section Resolvers.

Context {env : Collaborators}.

Definition BLOCK_CHUNK_PROVIDERS : gset string :=
  list_to_set (PROVIDER_IDS ++ [INTERNAL_MESSAGE_PROVIDER]).

Definition normalizeChunkProvider (provider : option string) : option string :=
  match truthy provider with
  | None => None
  | Some p =>
      let cleaned := toLowerCase (trim p) in
      if bool_decide (cleaned ∈ BLOCK_CHUNK_PROVIDERS)
      then Some cleaned
      else None
  end.

Definition resolveProviderBlockStreamingCoalesce
    (cfg : option ClawdbotConfig) (providerKey : option string)
    (accountId : option string) : option CoalesceCfg.t :=
  match cfg, truthy providerKey with
  | Some c, Some key =>
      match asObject (Config.providers c !! key) with
      | None => None
      | Some typed =>
          let normalizedAccountId := normalizeAccountId accountId in
          let accountCfg :=
            ProviderCfg.accounts typed ?> (fun m => m !! normalizedAccountId) in
          orElse (accountCfg ?> AccountCfg.blockStreamingCoalesce)
                 (ProviderCfg.blockStreamingCoalesce typed)
      end
  | _, _ => None
  end.

(** [providerId ? getProviderPlugin(providerId) : undefined] *)
Definition pluginFor (providerId : option string) : option Plugin.t :=
  match truthy providerId with
  | Some id => getProviderPlugin id
  | None => None
  end.

Definition resolveBlockStreamingChunking
    (cfg : option ClawdbotConfig) (provider : option string)
    (accountId : option string) : Chunking.t :=
  let providerKey := normalizeChunkProvider provider in
  let providerId :=
    match truthy providerKey with
    | Some k => normalizeProviderId k
    | None => None
    end in
  let providerChunkLimit :=
    pluginFor providerId ?> Plugin.outbound ?> Plugin.textChunkLimit in
  let textLimit : number :=
    inject_Z (resolveTextChunkLimit cfg providerKey accountId providerChunkLimit) in
  let chunkCfg :=
    cfg ?> Config.agents ?> Agents.defaults ?> AgentDefaults.blockStreamingChunk in
  let maxRequested :=
    Math_max 1%Q (Math_floor
      (orDefault (chunkCfg ?> ChunkCfg.maxChars) DEFAULT_BLOCK_STREAM_MAX)) in
  let maxChars := Math_max 1%Q (Math_min maxRequested textLimit) in
  let minFallback := DEFAULT_BLOCK_STREAM_MIN in
  let minRequested :=
    Math_max 1%Q (Math_floor
      (orDefault (chunkCfg ?> ChunkCfg.minChars) minFallback)) in
  let minChars := Math_min minRequested maxChars in
  let breakPreference :=
    pickBreakPreference (chunkCfg ?> ChunkCfg.breakPreference) in
  Chunking.mk minChars maxChars breakPreference.

Definition resolveTelegramDraftStreamingChunking
    (cfg : option ClawdbotConfig) (accountId : option string) : Chunking.t :=
  let providerKey : option string := Some "telegram"%string in
  let providerChunkLimit :=
    getProviderPlugin "telegram" ?> Plugin.outbound ?> Plugin.textChunkLimit in
  let textLimit : number :=
    inject_Z (resolveTextChunkLimit cfg providerKey accountId providerChunkLimit) in
  let normalizedAccountId := normalizeAccountId accountId in
  let telegram :=
    cfg ?> (fun c => asObject (Config.providers c !! "telegram"%string)) in
  let draftCfg :=
    orElse
      (telegram ?> ProviderCfg.accounts
                ?> (fun m => m !! normalizedAccountId)
                ?> AccountCfg.draftChunk)
      (telegram ?> ProviderCfg.draftChunk) in
  let maxRequested :=
    Math_max 1%Q (Math_floor
      (orDefault (draftCfg ?> ChunkCfg.maxChars)
                 DEFAULT_TELEGRAM_DRAFT_STREAM_MAX)) in
  let maxChars := Math_max 1%Q (Math_min maxRequested textLimit) in
  let minRequested :=
    Math_max 1%Q (Math_floor
      (orDefault (draftCfg ?> ChunkCfg.minChars)
                 DEFAULT_TELEGRAM_DRAFT_STREAM_MIN)) in
  let minChars := Math_min minRequested maxChars in
  let breakPreference :=
    pickBreakPreference (draftCfg ?> ChunkCfg.breakPreference) in
  Chunking.mk minChars maxChars breakPreference.

(** The declared result type is [BlockStreamingCoalescing | undefined];
    the single [return] of the body builds a record. *)
Definition resolveBlockStreamingCoalescing
    (cfg : option ClawdbotConfig) (provider : option string)
    (accountId : option string) (chunking : option Chunking.t)
    : option BlockStreamingCoalescing.t :=
  let providerKey := normalizeChunkProvider provider in
  let providerId :=
    match truthy providerKey with
    | Some k => normalizeProviderId k
    | None => None
    end in
  let providerChunkLimit :=
    pluginFor providerId ?> Plugin.outbound ?> Plugin.textChunkLimit in
  let textLimit : number :=
    inject_Z (resolveTextChunkLimit cfg providerKey accountId providerChunkLimit) in
  let providerDefaults :=
    pluginFor providerId ?> Plugin.streaming
                         ?> Plugin.blockStreamingCoalesceDefaults in
  let providerCfg :=
    resolveProviderBlockStreamingCoalesce cfg providerKey accountId in
  let coalesceCfg :=
    orElse providerCfg
      (cfg ?> Config.agents ?> Agents.defaults
           ?> AgentDefaults.blockStreamingCoalesce) in
  let minRequested :=
    Math_max 1%Q (Math_floor
      (orDefault
         (orElse (coalesceCfg ?> CoalesceCfg.minChars)
            (orElse (providerDefaults ?> Plugin.minChars)
                    (option_map Chunking.minChars chunking)))
         DEFAULT_BLOCK_STREAM_MIN)) in
  let maxRequested :=
    Math_max 1%Q (Math_floor
      (orDefault (coalesceCfg ?> CoalesceCfg.maxChars) textLimit)) in
  let maxChars := Math_max 1%Q (Math_min maxRequested textLimit) in
  let minChars := Math_min minRequested maxChars in
  let idleMs :=
    Math_max 0%Q (Math_floor
      (orDefault
         (orElse (coalesceCfg ?> CoalesceCfg.idleMs)
                 (providerDefaults ?> Plugin.idleMs))
         DEFAULT_BLOCK_STREAM_COALESCE_IDLE_MS)) in
  let preference :=
    orDefault (option_map Chunking.breakPreference chunking) "paragraph"%string in
  let joiner :=
    if String.eqb preference "sentence" then " "%string
    else if String.eqb preference "newline" then LF
    else (LF ++ LF)%string in
  Some (BlockStreamingCoalescing.mk minChars maxChars idleMs joiner).

(** *** The values the statements below refer to *)

(** The hard limit of a general chunking or coalescing call: what
    [resolveTextChunkLimit] answers for the arguments both resolvers pass
    to it. *)
Definition hardLimit
    (cfg : option ClawdbotConfig) (provider : option string)
    (accountId : option string) : Z :=
  let providerKey := normalizeChunkProvider provider in
  let providerId :=
    match truthy providerKey with
    | Some k => normalizeProviderId k
    | None => None
    end in
  let providerChunkLimit :=
    pluginFor providerId ?> Plugin.outbound ?> Plugin.textChunkLimit in
  resolveTextChunkLimit cfg providerKey accountId providerChunkLimit.

(** The hard limit of a Telegram draft call. *)
Definition telegramHardLimit
    (cfg : option ClawdbotConfig) (accountId : option string) : Z :=
  resolveTextChunkLimit cfg (Some "telegram"%string) accountId
    (getProviderPlugin "telegram" ?> Plugin.outbound ?> Plugin.textChunkLimit).

(** [chunkCfg] of [resolveBlockStreamingChunking]. *)
Definition chunkCfgOf (cfg : option ClawdbotConfig) : option ChunkCfg.t :=
  cfg ?> Config.agents ?> Agents.defaults ?> AgentDefaults.blockStreamingChunk.

(** [draftCfg] of [resolveTelegramDraftStreamingChunking]. *)
Definition draftCfgOf
    (cfg : option ClawdbotConfig) (accountId : option string)
    : option ChunkCfg.t :=
  let telegram :=
    cfg ?> (fun c => asObject (Config.providers c !! "telegram"%string)) in
  orElse
    (telegram ?> ProviderCfg.accounts
              ?> (fun m => m !! normalizeAccountId accountId)
              ?> AccountCfg.draftChunk)
    (telegram ?> ProviderCfg.draftChunk).

(** The agent-level coalescing default. *)
Definition agentCoalesceOf (cfg : option ClawdbotConfig) : option CoalesceCfg.t :=
  cfg ?> Config.agents ?> Agents.defaults ?> AgentDefaults.blockStreamingCoalesce.

(** [coalesceCfg] of [resolveBlockStreamingCoalescing]. *)
Definition coalesceCfgOf
    (cfg : option ClawdbotConfig) (provider : option string)
    (accountId : option string) : option CoalesceCfg.t :=
  orElse
    (resolveProviderBlockStreamingCoalesce cfg
       (normalizeChunkProvider provider) accountId)
    (agentCoalesceOf cfg).

(** [providerDefaults] of [resolveBlockStreamingCoalescing]. *)
Definition providerDefaultsOf (provider : option string)
    : option Plugin.CoalesceDefaults :=
  let providerKey := normalizeChunkProvider provider in
  let providerId :=
    match truthy providerKey with
    | Some k => normalizeProviderId k
    | None => None
    end in
  pluginFor providerId ?> Plugin.streaming
                       ?> Plugin.blockStreamingCoalesceDefaults.

(** The spec's wording of the clamp: floor, force to at least 1, cap at
    the limit. *)
Definition clampToLimit (requested : number) (limit : Z) : Z :=
  Z.min (Z.max 1 (Qfloor requested)) limit.

(** The spec's wording of the joiner table: sentence gives a space,
    newline a line feed, anything else (or nothing) a blank line. *)
Definition joinerFor (breakPreference : option string) : string :=
  match breakPreference with
  | Some p =>
      if String.eqb p "sentence" then " "%string
      else if String.eqb p "newline" then LF
      else (LF ++ LF)%string
  | None => (LF ++ LF)%string
  end.

(** Lines 164-195 of [resolveBlockStreamingCoalescing] as a function of the
    local constants [coalesceCfg], [providerDefaults] and [textLimit]. *)
Definition coalescingFrom
    (coalesceCfg : option CoalesceCfg.t)
    (providerDefaults : option Plugin.CoalesceDefaults)
    (limit : Z) (chunking : option Chunking.t)
    : BlockStreamingCoalescing.t :=
  let textLimit : number := inject_Z limit in
  let minRequested :=
    Math_max 1%Q (Math_floor
      (orDefault
         (orElse (coalesceCfg ?> CoalesceCfg.minChars)
            (orElse (providerDefaults ?> Plugin.minChars)
                    (option_map Chunking.minChars chunking)))
         DEFAULT_BLOCK_STREAM_MIN)) in
  let maxRequested :=
    Math_max 1%Q (Math_floor
      (orDefault (coalesceCfg ?> CoalesceCfg.maxChars) textLimit)) in
  let maxChars := Math_max 1%Q (Math_min maxRequested textLimit) in
  let minChars := Math_min minRequested maxChars in
  let idleMs :=
    Math_max 0%Q (Math_floor
      (orDefault
         (orElse (coalesceCfg ?> CoalesceCfg.idleMs)
                 (providerDefaults ?> Plugin.idleMs))
         DEFAULT_BLOCK_STREAM_COALESCE_IDLE_MS)) in
  let preference :=
    orDefault (option_map Chunking.breakPreference chunking) "paragraph"%string in
  let joiner :=
    if String.eqb preference "sentence" then " "%string
    else if String.eqb preference "newline" then LF
    else (LF ++ LF)%string in
  BlockStreamingCoalescing.mk minChars maxChars idleMs joiner.

(** [minChars] and [maxChars] are integers with
    [1 <= minChars <= maxChars <= max 1 limit]. *)
Definition wellClamped (minChars maxChars : number) (limit : Z) : Prop :=
  exists zmin zmax : Z,
    minChars = inject_Z zmin /\ maxChars = inject_Z zmax /\
    1 <= zmin /\ zmin <= zmax /\ zmax <= Z.max 1 limit.

(** ** Arithmetic of the clamps *)

Lemma Qle_bool_inject_Z (a b : Z) :
  Qle_bool (inject_Z a) (inject_Z b) = (a <=? b).
Proof. unfold Qle_bool, inject_Z; simpl. by rewrite !Z.mul_1_r. Qed.

Lemma Math_max_inject_Z (a b : Z) :
  Math_max (inject_Z a) (inject_Z b) = inject_Z (Z.max a b).
Proof.
  unfold Math_max. rewrite Qle_bool_inject_Z.
  destruct (Z.leb_spec a b); f_equal; lia.
Qed.

Lemma Math_min_inject_Z (a b : Z) :
  Math_min (inject_Z a) (inject_Z b) = inject_Z (Z.min a b).
Proof.
  unfold Math_min. rewrite Qle_bool_inject_Z.
  destruct (Z.leb_spec a b); f_equal; lia.
Qed.

Lemma requested_at_least_1 (x : number) :
  Math_max 1%Q (Math_floor x) = inject_Z (Z.max 1 (Qfloor x)).
Proof. apply (Math_max_inject_Z 1). Qed.

Lemma requested_at_least_0 (x : number) :
  Math_max 0%Q (Math_floor x) = inject_Z (Z.max 0 (Qfloor x)).
Proof. apply (Math_max_inject_Z 0). Qed.

(** [maxChars] then [minChars], as every resolver computes them. *)
Lemma clamp_max (requested : number) (limit : Z) :
  Math_max 1%Q (Math_min (Math_max 1%Q (Math_floor requested)) (inject_Z limit))
  = inject_Z (Z.max 1 (clampToLimit requested limit)).
Proof.
  rewrite requested_at_least_1, Math_min_inject_Z.
  apply (Math_max_inject_Z 1).
Qed.

Lemma clamp_min (requested : number) (zmax : Z) :
  Math_min (Math_max 1%Q (Math_floor requested)) (inject_Z zmax)
  = inject_Z (Z.min (Z.max 1 (Qfloor requested)) zmax).
Proof. by rewrite requested_at_least_1, Math_min_inject_Z. Qed.

Lemma wellClamped_intro (minReq maxReq : number) (limit : Z) :
  wellClamped
    (inject_Z (Z.min (Z.max 1 (Qfloor minReq))
                     (Z.max 1 (clampToLimit maxReq limit))))
    (inject_Z (Z.max 1 (clampToLimit maxReq limit)))
    limit.
Proof.
  eexists _, _. split; [reflexivity|]. split; [reflexivity|].
  unfold clampToLimit. lia.
Qed.

(** ** The resolvers in closed form *)

Lemma chunking_closed_form cfg provider accountId :
  resolveBlockStreamingChunking cfg provider accountId =
  let c := chunkCfgOf cfg in
  let zmax :=
    Z.max 1 (clampToLimit
               (orDefault (c ?> ChunkCfg.maxChars) DEFAULT_BLOCK_STREAM_MAX)
               (hardLimit cfg provider accountId)) in
  Chunking.mk
    (inject_Z (Z.min
       (Z.max 1 (Qfloor (orDefault (c ?> ChunkCfg.minChars)
                                   DEFAULT_BLOCK_STREAM_MIN)))
       zmax))
    (inject_Z zmax)
    (pickBreakPreference (c ?> ChunkCfg.breakPreference)).
Proof.
  unfold resolveBlockStreamingChunking; cbv zeta.
  rewrite clamp_max, clamp_min. reflexivity.
Qed.

Lemma telegram_closed_form cfg accountId :
  resolveTelegramDraftStreamingChunking cfg accountId =
  let d := draftCfgOf cfg accountId in
  let zmax :=
    Z.max 1 (clampToLimit
               (orDefault (d ?> ChunkCfg.maxChars)
                          DEFAULT_TELEGRAM_DRAFT_STREAM_MAX)
               (telegramHardLimit cfg accountId)) in
  Chunking.mk
    (inject_Z (Z.min
       (Z.max 1 (Qfloor (orDefault (d ?> ChunkCfg.minChars)
                                   DEFAULT_TELEGRAM_DRAFT_STREAM_MIN)))
       zmax))
    (inject_Z zmax)
    (pickBreakPreference (d ?> ChunkCfg.breakPreference)).
Proof.
  unfold resolveTelegramDraftStreamingChunking; cbv zeta.
  rewrite clamp_max, clamp_min. reflexivity.
Qed.

Lemma coalescing_unfold cfg provider accountId chunking :
  resolveBlockStreamingCoalescing cfg provider accountId chunking =
  Some (coalescingFrom (coalesceCfgOf cfg provider accountId)
                       (providerDefaultsOf provider)
                       (hardLimit cfg provider accountId) chunking).
Proof. reflexivity. Qed.

Lemma coalescingFrom_closed_form coalesceCfg providerDefaults limit chunking :
  coalescingFrom coalesceCfg providerDefaults limit chunking =
  let zmax :=
    Z.max 1 (clampToLimit
               (orDefault (coalesceCfg ?> CoalesceCfg.maxChars) (inject_Z limit))
               limit) in
  BlockStreamingCoalescing.mk
    (inject_Z (Z.min
       (Z.max 1 (Qfloor
          (orDefault
             (orElse (coalesceCfg ?> CoalesceCfg.minChars)
                (orElse (providerDefaults ?> Plugin.minChars)
                        (option_map Chunking.minChars chunking)))
             DEFAULT_BLOCK_STREAM_MIN)))
       zmax))
    (inject_Z zmax)
    (inject_Z (Z.max 0 (Qfloor
       (orDefault
          (orElse (coalesceCfg ?> CoalesceCfg.idleMs)
                  (providerDefaults ?> Plugin.idleMs))
          DEFAULT_BLOCK_STREAM_COALESCE_IDLE_MS))))
    (joinerFor (option_map Chunking.breakPreference chunking)).
Proof.
  unfold coalescingFrom; cbv zeta.
  rewrite clamp_max, clamp_min, requested_at_least_0.
  f_equal. destruct chunking; reflexivity.
Qed.


Lemma clamped_below_1 (maxReq : number) (limit : Z) :
  limit < 1 ->
  inject_Z (Z.max 1 (clampToLimit maxReq limit)) = 1%Q /\
  (inject_Z limit < inject_Z (Z.max 1 (clampToLimit maxReq limit)))%Q.
Proof.
  intros Hlow. unfold clampToLimit.
  replace (Z.max 1 (Z.min (Z.max 1 (Qfloor maxReq)) limit)) with 1 by lia.
  split; [reflexivity|]. rewrite <- Zlt_Qlt. lia.
Qed.

(** ** The claims *)


(** C4: in [resolveBlockStreamingChunking], [maxChars] is the configured
    max (default 1200) floored, forced to at least 1 and capped at the hard
    limit; [minChars] is the configured min (default 800) floored, forced
    to at least 1 and reduced to [maxChars] when it exceeds it.  The hard
    limit is the positive integer the text-limit resolver answers. *)
Theorem C4_chunking_clamp cfg provider accountId :
  1 <= hardLimit cfg provider accountId ->
  let r := resolveBlockStreamingChunking cfg provider accountId in
  let configuredMax :=
    orDefault (chunkCfgOf cfg ?> ChunkCfg.maxChars) 1200%Q in
  let configuredMin :=
    orDefault (chunkCfgOf cfg ?> ChunkCfg.minChars) 800%Q in
  let zmax := clampToLimit configuredMax (hardLimit cfg provider accountId) in
  Chunking.maxChars r = inject_Z zmax /\
  Chunking.minChars r = inject_Z (Z.min (Z.max 1 (Qfloor configuredMin)) zmax) /\
  (Chunking.minChars r <= Chunking.maxChars r)%Q.
Proof.
  intros HL r cmax cmin zmax. subst r.
  rewrite chunking_closed_form. cbv zeta. simpl.
  fold cmax cmin. unfold DEFAULT_BLOCK_STREAM_MAX, DEFAULT_BLOCK_STREAM_MIN.
  fold cmax cmin.
  assert (Hz : Z.max 1 (clampToLimit cmax (hardLimit cfg provider accountId)) = zmax).
  { subst zmax. unfold clampToLimit. lia. }
  rewrite Hz. repeat split.
  rewrite <- Zle_Qle. lia.
Qed.

(** C8: with an absent configuration and a Telegram hard limit of at
    least 800, [resolveTelegramDraftStreamingChunking] returns
    [{minChars: 200, maxChars: 800, breakPreference: "paragraph"}], which
    is not the 800/1200 of the general chunking resolver. *)
Theorem C8_telegram_draft_defaults accountId :
  800 <= telegramHardLimit None accountId ->
  resolveTelegramDraftStreamingChunking None accountId
    = Chunking.mk 200%Q 800%Q "paragraph" /\
  resolveTelegramDraftStreamingChunking None accountId
    <> Chunking.mk DEFAULT_BLOCK_STREAM_MIN DEFAULT_BLOCK_STREAM_MAX "paragraph".
Proof.
  intros HT.
  assert (Heq : resolveTelegramDraftStreamingChunking None accountId
                = Chunking.mk 200%Q 800%Q "paragraph").
  { rewrite telegram_closed_form. cbv zeta.
    change (draftCfgOf None accountId) with (@None ChunkCfg.t).
    cbn [chain orDefault pickBreakPreference].
    unfold clampToLimit.
    change (Qfloor DEFAULT_TELEGRAM_DRAFT_STREAM_MAX) with 800.
    change (Qfloor DEFAULT_TELEGRAM_DRAFT_STREAM_MIN) with 200.
    replace (Z.max 1 (Z.min (Z.max 1 800) (telegramHardLimit None accountId)))
      with 800 by lia.
    reflexivity. }
  split; [exact Heq|]. rewrite Heq. discriminate.
Qed.

(** On finite sizes and an integer hard limit, zero and negative ones
    included, the three resolvers return integers with
    [1 <= minChars <= maxChars], [idleMs] is an integer that is at least 0,
    and a hard limit below 1 forces [maxChars] up to 1.  (What NaN and
    infinite numbers do is settled in [Ieee].) *)
Lemma rational_sizes_give_integer_results cfg provider accountId chunking :
  let c := resolveBlockStreamingChunking cfg provider accountId in
  let d := resolveTelegramDraftStreamingChunking cfg accountId in
  let L := hardLimit cfg provider accountId in
  let T := telegramHardLimit cfg accountId in
  (wellClamped (Chunking.minChars c) (Chunking.maxChars c) L /\
   (L < 1 -> Chunking.maxChars c = 1%Q /\ (inject_Z L < Chunking.maxChars c)%Q)) /\
  (wellClamped (Chunking.minChars d) (Chunking.maxChars d) T /\
   (T < 1 -> Chunking.maxChars d = 1%Q /\ (inject_Z T < Chunking.maxChars d)%Q)) /\
  exists k,
    resolveBlockStreamingCoalescing cfg provider accountId chunking = Some k /\
    wellClamped (BlockStreamingCoalescing.minChars k)
                (BlockStreamingCoalescing.maxChars k) L /\
    (L < 1 -> BlockStreamingCoalescing.maxChars k = 1%Q /\
              (inject_Z L < BlockStreamingCoalescing.maxChars k)%Q) /\
    exists zidle : Z,
      BlockStreamingCoalescing.idleMs k = inject_Z zidle /\ 0 <= zidle.
Proof.
  intros c d L T; subst c d L T.
  rewrite chunking_closed_form, telegram_closed_form, coalescing_unfold.
  split; [|split].
  - split; [apply wellClamped_intro | apply clamped_below_1].
  - split; [apply wellClamped_intro | apply clamped_below_1].
  - eexists. split; [reflexivity|].
    rewrite coalescingFrom_closed_form.
    split; [apply wellClamped_intro|].
    split; [apply clamped_below_1|].
    eexists. split; [reflexivity|]. simpl. lia.
Qed.

Lemma truthy_Some (o : option string) (key : string) :
  truthy o = Some key -> o = Some key.
Proof.
  destruct o as [s|]; simpl; [|discriminate].
  destruct (String.eqb s EmptyString); congruence.
Qed.

Lemma normalizeChunkProvider_unregistered (raw : string) :
  toLowerCase (trim raw) ∉ BLOCK_CHUNK_PROVIDERS ->
  normalizeChunkProvider (Some raw) = None.
Proof.
  intros Hout. unfold normalizeChunkProvider.
  destruct (truthy (Some raw)) as [p|] eqn:Hp; [|reflexivity].
  apply truthy_Some in Hp. injection Hp as <-.
  by rewrite bool_decide_eq_false_2.
Qed.


(** C3: when the account entry has a [blockStreamingCoalesce] block of its
    own, that block is the whole override: the result is the one computed
    from it alone, whatever the provider-level block holds, and a
    [minChars] missing from the account block comes from the plugin
    streaming defaults, then the chunking argument, then 800. *)
Theorem C3_account_block_shadows_provider_block
    c provider key accountId typed accounts account block chunking :
  truthy (normalizeChunkProvider provider) = Some key ->
  Config.providers c !! key = Some (CfgObject typed) ->
  ProviderCfg.accounts typed = Some accounts ->
  accounts !! normalizeAccountId accountId = Some account ->
  AccountCfg.blockStreamingCoalesce account = Some block ->
  resolveProviderBlockStreamingCoalesce
    (Some c) (normalizeChunkProvider provider) accountId = Some block /\
  resolveBlockStreamingCoalescing (Some c) provider accountId chunking =
    Some (coalescingFrom (Some block) (providerDefaultsOf provider)
            (hardLimit (Some c) provider accountId) chunking) /\
  (CoalesceCfg.minChars block = None ->
   exists k,
     resolveBlockStreamingCoalescing (Some c) provider accountId chunking
       = Some k /\
     BlockStreamingCoalescing.minChars k =
       Math_min
         (Math_max 1%Q (Math_floor
            (orDefault
               (orElse (providerDefaultsOf provider ?> Plugin.minChars)
                       (option_map Chunking.minChars chunking))
               800%Q)))
         (BlockStreamingCoalescing.maxChars k)).
Proof.
  intros Hkey Hsec Haccs Hacc Hblock.
  assert (Hprov : resolveProviderBlockStreamingCoalesce
                    (Some c) (normalizeChunkProvider provider) accountId
                  = Some block).
  { unfold resolveProviderBlockStreamingCoalesce.
    rewrite Hkey, Hsec. simpl. rewrite Haccs. simpl.
    rewrite Hacc. simpl. by rewrite Hblock. }
  assert (Hres : resolveBlockStreamingCoalescing (Some c) provider accountId chunking =
                 Some (coalescingFrom (Some block) (providerDefaultsOf provider)
                         (hardLimit (Some c) provider accountId) chunking)).
  { rewrite coalescing_unfold. unfold coalesceCfgOf. by rewrite Hprov. }
  split; [exact Hprov|]. split; [exact Hres|].
  intros Hmin. eexists. split; [exact Hres|].
  unfold coalescingFrom; cbv zeta. simpl. by rewrite Hmin.
Qed.

(** C5: when the effective coalescing block configures no [maxChars], the
    coalescing [maxChars] is the hard limit itself, forced to at least 1
    (so the hard limit as soon as it is positive); and the [maxChars] of
    the chunking argument never influences the result. *)
Theorem C5_coalescing_max_falls_back_to_hard_limit
    cfg provider accountId chunking :
  coalesceCfgOf cfg provider accountId ?> CoalesceCfg.maxChars = None ->
  (exists k,
     resolveBlockStreamingCoalescing cfg provider accountId chunking = Some k /\
     BlockStreamingCoalescing.maxChars k
       = inject_Z (Z.max 1 (hardLimit cfg provider accountId)) /\
     (1 <= hardLimit cfg provider accountId ->
      BlockStreamingCoalescing.maxChars k
        = inject_Z (hardLimit cfg provider accountId))) /\
  forall otherMax : number,
    resolveBlockStreamingCoalescing cfg provider accountId
      (option_map
         (fun ch => Chunking.mk (Chunking.minChars ch) otherMax
                                (Chunking.breakPreference ch))
         chunking)
    = resolveBlockStreamingCoalescing cfg provider accountId chunking.
Proof.
  intros Hnomax. split.
  - eexists. split; [apply coalescing_unfold|].
    rewrite coalescingFrom_closed_form. cbv zeta. simpl.
    rewrite Hnomax. simpl. unfold clampToLimit. rewrite Qfloor_Z.
    split; [f_equal; lia | intros HL; f_equal; lia].
  - intros otherMax. rewrite !coalescing_unfold. f_equal.
    destruct chunking; reflexivity.
Qed.

(** C6: the joiner of the coalescing result is determined by the
    [breakPreference] of the chunking argument alone: "sentence" gives a
    single space, "newline" a single line feed, and anything else,
    a missing chunking argument included, two line feeds; two calls whose
    chunking arguments agree on [breakPreference] get the same joiner,
    whatever their configurations. *)
Theorem C6_joiner_from_break_preference cfg provider accountId chunking :
  exists k,
    resolveBlockStreamingCoalescing cfg provider accountId chunking = Some k /\
    BlockStreamingCoalescing.joiner k
      = joinerFor (option_map Chunking.breakPreference chunking) /\
    (option_map Chunking.breakPreference chunking = Some "sentence"%string ->
     BlockStreamingCoalescing.joiner k = " "%string) /\
    (option_map Chunking.breakPreference chunking = Some "newline"%string ->
     BlockStreamingCoalescing.joiner k = LF) /\
    (chunking = None ->
     BlockStreamingCoalescing.joiner k = (LF ++ LF)%string) /\
    (forall p,
       option_map Chunking.breakPreference chunking = Some p ->
       p <> "sentence"%string -> p <> "newline"%string ->
       BlockStreamingCoalescing.joiner k = (LF ++ LF)%string) /\
    (forall cfg' provider' accountId' chunking' k',
       resolveBlockStreamingCoalescing cfg' provider' accountId' chunking'
         = Some k' ->
       option_map Chunking.breakPreference chunking'
         = option_map Chunking.breakPreference chunking ->
       BlockStreamingCoalescing.joiner k' = BlockStreamingCoalescing.joiner k).
Proof.
  eexists. split; [apply coalescing_unfold|].
  rewrite coalescingFrom_closed_form. cbv zeta. simpl.
  split; [reflexivity|].
  split; [by intros ->|]. split; [by intros ->|]. split; [by intros ->|].
  split.
  - intros p -> Hs Hn. simpl.
    apply String.eqb_neq in Hs, Hn. by rewrite Hs, Hn.
  - intros cfg' provider' accountId' chunking' k' Hk' <-.
    rewrite coalescing_unfold, coalescingFrom_closed_form in Hk'.
    by injection Hk' as <-.
Qed.

(** C7: a provider string whose trimmed, lowercased form is not in the
    registered provider set gives the same results as a missing provider
    argument, for the chunking and for the coalescing resolver. *)
Theorem C7_unregistered_provider_is_absent_provider
    cfg (raw : string) accountId chunking :
  toLowerCase (trim raw) ∉ BLOCK_CHUNK_PROVIDERS ->
  resolveBlockStreamingChunking cfg (Some raw) accountId
    = resolveBlockStreamingChunking cfg None accountId /\
  resolveBlockStreamingCoalescing cfg (Some raw) accountId chunking
    = resolveBlockStreamingCoalescing cfg None accountId chunking.
Proof.
  intros Hout%normalizeChunkProvider_unregistered.
  unfold resolveBlockStreamingChunking, resolveBlockStreamingCoalescing.
  rewrite Hout. split; reflexivity.
Qed.

(** C10: shadowing needs the account entry's own
    [blockStreamingCoalesce] block.  An account entry without one leaves
    the provider-level block in force; the agent-level default
    [agents.defaults.blockStreamingCoalesce] is used when neither block
    exists, and is not consulted when one of them does. *)
Theorem C10_account_entry_without_block_inherits
    c provider key accountId typed chunking :
  truthy (normalizeChunkProvider provider) = Some key ->
  Config.providers c !! key = Some (CfgObject typed) ->
  let accountCfg :=
    ProviderCfg.accounts typed ?> (fun m => m !! normalizeAccountId accountId) in
  let accountBlock := accountCfg ?> AccountCfg.blockStreamingCoalesce in
  let providerBlock := ProviderCfg.blockStreamingCoalesce typed in
  (forall account b,
     accountCfg = Some account ->
     AccountCfg.blockStreamingCoalesce account = None ->
     providerBlock = Some b ->
     coalesceCfgOf (Some c) provider accountId = Some b) /\
  (accountBlock = None -> providerBlock = None ->
   coalesceCfgOf (Some c) provider accountId = agentCoalesceOf (Some c)) /\
  (forall b,
     orElse accountBlock providerBlock = Some b ->
     coalesceCfgOf (Some c) provider accountId = Some b) /\
  resolveBlockStreamingCoalescing (Some c) provider accountId chunking =
    Some (coalescingFrom (coalesceCfgOf (Some c) provider accountId)
            (providerDefaultsOf provider)
            (hardLimit (Some c) provider accountId) chunking).
Proof.
  intros Hkey Hsec accountCfg accountBlock providerBlock.
  assert (Hcfg : coalesceCfgOf (Some c) provider accountId
                 = orElse (orElse accountBlock providerBlock)
                          (agentCoalesceOf (Some c))).
  { unfold coalesceCfgOf, resolveProviderBlockStreamingCoalesce.
    rewrite Hkey, Hsec. reflexivity. }
  rewrite Hcfg. repeat split.
  - intros account b Hacc Hnone Hb.
    subst accountBlock. rewrite Hacc. simpl. rewrite Hnone, Hb. reflexivity.
  - intros -> ->. reflexivity.
  - intros b ->. reflexivity.
  - rewrite coalescing_unfold. by rewrite Hcfg.
Qed.

End Resolvers.

(** ** The resolvers on the concrete environment *)


(** Hard limit 500, configured chunk max 1200, no configured min:
    [maxChars = 500] and [minChars = 500]. *)
Lemma C4_witness :
  1 <= @hardLimit (Sample.env 500) (Some Sample.chunkMaxCfg) None None /\
  Chunking.maxChars
    (@resolveBlockStreamingChunking (Sample.env 500)
       (Some Sample.chunkMaxCfg) None None) = 500%Q /\
  Chunking.minChars
    (@resolveBlockStreamingChunking (Sample.env 500)
       (Some Sample.chunkMaxCfg) None None) = 500%Q.
Proof.
  split; [discriminate|].
  destruct (@C4_chunking_clamp (Sample.env 500) (Some Sample.chunkMaxCfg) None None)
    as (Hmax & Hmin & _); [discriminate|].
  split; [exact Hmax | exact Hmin].
Defined.

Lemma C8_witness :
  800 <= @telegramHardLimit (Sample.env 4000) None None /\
  @resolveTelegramDraftStreamingChunking (Sample.env 4000) None None
    = Chunking.mk 200%Q 800%Q "paragraph".
Proof.
  split; [discriminate|].
  apply (@C8_telegram_draft_defaults (Sample.env 4000) None). discriminate.
Defined.


(** Account override [{idleMs: 50}] over provider override
    [{minChars: 300}]: [minChars] is the built-in 800, [idleMs] is 50. *)
Lemma C3_witness :
  @resolveBlockStreamingCoalescing (Sample.env 4000)
    (Some Sample.shadowedCfg) (Some "telegram"%string) None None
  = Some (BlockStreamingCoalescing.mk 800%Q 4000%Q 50%Q (LF ++ LF)%string).
Proof.
  destruct (@C3_account_block_shadows_provider_block (Sample.env 4000)
              Sample.shadowedCfg (Some "telegram"%string) "telegram"%string None
              Sample.shadowedProvider
              {[ "default"%string := Sample.shadowedAccount ]}
              Sample.shadowedAccount
              (CoalesceCfg.mk None None (Some 50%Q)) None)
    as (_ & Hres & _);
    [reflexivity | reflexivity | reflexivity | reflexivity | reflexivity | ].
  rewrite Hres. vm_compute. reflexivity.
Defined.

Lemma C5_witness :
  @coalesceCfgOf (Sample.env 4000)
     (Some Sample.shadowedCfg) (Some "telegram"%string) None
     ?> CoalesceCfg.maxChars = None /\
  exists k,
    @resolveBlockStreamingCoalescing (Sample.env 4000)
      (Some Sample.shadowedCfg) (Some "telegram"%string) None
      (Some (Chunking.mk 800%Q 1200%Q "paragraph")) = Some k /\
    BlockStreamingCoalescing.maxChars k = 4000%Q.
Proof.
  split; [reflexivity|].
  destruct (@C5_coalescing_max_falls_back_to_hard_limit (Sample.env 4000)
              (Some Sample.shadowedCfg) (Some "telegram"%string) None
              (Some (Chunking.mk 800%Q 1200%Q "paragraph")))
    as ((k & Hk & _ & Hmax) & _); [reflexivity|].
  exists k. split; [exact Hk|]. apply Hmax. discriminate.
Defined.

Lemma C6_witness :
  exists k,
    @resolveBlockStreamingCoalescing (Sample.env 4000)
      (Some Sample.shadowedCfg) (Some "telegram"%string) None
      (Some (Chunking.mk 100%Q 200%Q "sentence")) = Some k /\
    BlockStreamingCoalescing.joiner k = " "%string.
Proof.
  destruct (@C6_joiner_from_break_preference (Sample.env 4000)
              (Some Sample.shadowedCfg) (Some "telegram"%string) None
              (Some (Chunking.mk 100%Q 200%Q "sentence")))
    as (k & Hk & _ & Hsentence & _).
  exists k. split; [exact Hk|]. apply Hsentence. reflexivity.
Defined.

Lemma C7_witness :
  (toLowerCase (trim " Carrier-Pigeon ")
     ∉ (@BLOCK_CHUNK_PROVIDERS (Sample.env 4000))) /\
  @resolveBlockStreamingChunking (Sample.env 4000)
    (Some Sample.shadowedCfg) (Some " Carrier-Pigeon "%string) None
  = @resolveBlockStreamingChunking (Sample.env 4000)
      (Some Sample.shadowedCfg) None None.
Proof.
  assert (Hout : toLowerCase (trim " Carrier-Pigeon ")
                   ∉ (@BLOCK_CHUNK_PROVIDERS (Sample.env 4000))).
  { apply (bool_decide_eq_false_1 _). vm_compute. reflexivity. }
  split; [exact Hout|].
  apply (@C7_unregistered_provider_is_absent_provider (Sample.env 4000)
           (Some Sample.shadowedCfg) " Carrier-Pigeon "%string None None Hout).
Defined.

(** An account entry without a block of its own: the provider-level
    [{minChars: 300}] is in force, not the agent-level default. *)
Lemma C10_witness :
  @coalesceCfgOf (Sample.env 4000)
    (Some Sample.inheritingCfg) (Some "telegram"%string) None
  = Some (CoalesceCfg.mk (Some 300%Q) None None).
Proof.
  destruct (@C10_account_entry_without_block_inherits (Sample.env 4000)
              Sample.inheritingCfg (Some "telegram"%string) "telegram"%string
              None Sample.inheritingProvider None)
    as (Hinherit & _); [reflexivity | reflexivity | ].
  apply (Hinherit Sample.plainAccount); reflexivity.
Defined.

(** * Facts about strings *)
Module StringFacts.
Import CommandsScripts.

Lemma length_append (a b : string) :
  String.length (a ++ b) = (String.length a + String.length b)%nat.
Proof. induction a as [|c a IH]; simpl; [reflexivity | by rewrite IH]. Qed.

Lemma append_assoc (a b c : string) :
  ((a ++ b) ++ c)%string = (a ++ b ++ c)%string.
Proof.
  induction a as [|x a IH]; [reflexivity|].
  change (String x ((a ++ b) ++ c) = String x (a ++ b ++ c))%string.
  by rewrite IH.
Qed.

Lemma trimStart_no_terminator (s : string) :
  hasLineTerminator s = false -> hasLineTerminator (trimStart s) = false.
Proof.
  induction s as [|c s IH]; [reflexivity|].
  cbn [hasLineTerminator trimStart]. intros [Hc Hs]%orb_false_iff.
  destruct (isWhiteSpace c); [by apply IH|].
  cbn [hasLineTerminator]. by rewrite Hc, Hs.
Qed.

Lemma trimEnd_no_terminator (s : string) :
  hasLineTerminator s = false -> hasLineTerminator (trimEnd s) = false.
Proof.
  induction s as [|c s IH]; [reflexivity|].
  cbn [hasLineTerminator trimEnd]. intros [Hc Hs]%orb_false_iff.
  specialize (IH Hs). destruct (trimEnd s) as [|c' s'].
  - destruct (isWhiteSpace c); [reflexivity|].
    cbn [hasLineTerminator]. by rewrite Hc.
  - cbn [hasLineTerminator] in *. by rewrite Hc, IH.
Qed.

Lemma trimEnd_idempotent (s : string) : trimEnd (trimEnd s) = trimEnd s.
Proof.
  induction s as [|c s IH]; [reflexivity|].
  cbn [trimEnd]. destruct (trimEnd s) as [|c' s'] eqn:Hs.
  - destruct (isWhiteSpace c) eqn:Hc; [reflexivity|].
    cbn [trimEnd]. by rewrite Hc.
  - cbn [trimEnd] in *. rewrite IH. reflexivity.
Qed.

Lemma trimStart_startsClean (s : string) : startsClean (trimStart s).
Proof.
  induction s as [|c s IH]; [exact I|].
  cbn [trimStart]. by destruct (isWhiteSpace c) eqn:Hc.
Qed.

Lemma trimStart_clean (s : string) : startsClean s -> trimStart s = s.
Proof. destruct s as [|c s]; [reflexivity|]. simpl. by intros ->. Qed.

Lemma trimEnd_startsClean (s : string) : startsClean s -> startsClean (trimEnd s).
Proof.
  destruct s as [|c s]; [intros _; exact I|].
  cbn [startsClean trimEnd]. intros Hc.
  destruct (trimEnd s); [by rewrite Hc|exact Hc].
Qed.

Lemma trim_idempotent (s : string) : trim (trim s) = trim s.
Proof.
  unfold trim.
  rewrite (trimStart_clean (trimEnd (trimStart s))).
  - apply trimEnd_idempotent.
  - apply trimEnd_startsClean, trimStart_startsClean.
Qed.

Lemma trim_no_terminator (s : string) :
  hasLineTerminator s = false -> hasLineTerminator (trim s) = false.
Proof.
  intros Hs. by apply trimEnd_no_terminator, trimStart_no_terminator.
Qed.

Lemma isWhiteSpace_lowerChar (c : ascii) :
  isWhiteSpace (lowerChar c) = isWhiteSpace c.
Proof. destruct c as [[] [] [] [] [] [] [] []]; reflexivity. Qed.

Lemma lowerChar_idempotent (c : ascii) : lowerChar (lowerChar c) = lowerChar c.
Proof. destruct c as [[] [] [] [] [] [] [] []]; reflexivity. Qed.

Lemma toLowerCase_idempotent (s : string) :
  toLowerCase (toLowerCase s) = toLowerCase s.
Proof.
  induction s as [|c s IH]; [reflexivity|].
  cbn [toLowerCase]. by rewrite lowerChar_idempotent, IH.
Qed.

Lemma trimStart_toLowerCase (s : string) :
  trimStart (toLowerCase s) = toLowerCase (trimStart s).
Proof.
  induction s as [|c s IH]; [reflexivity|].
  cbn [toLowerCase trimStart]. rewrite isWhiteSpace_lowerChar.
  by destruct (isWhiteSpace c).
Qed.

Lemma trimEnd_toLowerCase (s : string) :
  trimEnd (toLowerCase s) = toLowerCase (trimEnd s).
Proof.
  induction s as [|c s IH]; [reflexivity|].
  cbn [toLowerCase trimEnd]. rewrite IH, isWhiteSpace_lowerChar.
  destruct (trimEnd s); cbn [toLowerCase]; [|reflexivity].
  by destruct (isWhiteSpace c).
Qed.

Lemma trim_toLowerCase (s : string) :
  trim (toLowerCase s) = toLowerCase (trim s).
Proof. unfold trim. by rewrite trimStart_toLowerCase, trimEnd_toLowerCase. Qed.

Lemma cleaned_is_clean (raw : string) :
  toLowerCase (trim (toLowerCase (trim raw))) = toLowerCase (trim raw).
Proof.
  rewrite trim_toLowerCase, toLowerCase_idempotent.
  by rewrite trim_idempotent.
Qed.

End StringFacts.

(** * Facts about the script and branch commands *)
Module CommandsScriptsFacts.
Import CommandsScripts StringFacts.

Local Open Scope Z_scope.

(** ** Table lookup *)

Lemma assoc_None_iff (key : string) (table : list (string * ScriptDef)) :
  assoc key table = None <-> key ∉ map fst table.
Proof.
  induction table as [|[k def] rest IH]; simpl.
  - split; [intros _; apply not_elem_of_nil | reflexivity].
  - rewrite not_elem_of_cons.
    destruct (String.eqb_spec key k) as [->|Hne].
    + split; [discriminate | intros [Hk _]; by destruct Hk].
    + rewrite IH. tauto.
Qed.

Lemma assoc_Some_elem (key : string) (table : list (string * ScriptDef)) def :
  assoc key table = Some def -> (key, def) ∈ table.
Proof.
  induction table as [|[k d] rest IH]; simpl; [discriminate|].
  destruct (String.eqb_spec key k) as [->|Hne].
  - intros [= ->]. apply list_elem_of_here.
  - intros H. apply list_elem_of_further. by apply IH.
Qed.

Lemma existsb_eqb_iff (key : string) (keys : list string) :
  existsb (String.eqb key) keys = true <-> key ∈ keys.
Proof.
  rewrite existsb_exists, list_elem_of_In. split.
  - intros (k & Hin & Heq). apply String.eqb_eq in Heq. by subst.
  - intros Hin. exists key. split; [exact Hin | apply String.eqb_refl].
Qed.

Lemma lookupScript_Absent_iff (key : string) :
  lookupScript key = Absent <->
  (key ∉ map fst CLAWD_SCRIPT_COMMANDS) /\ (key ∉ inheritedKeys).
Proof.
  unfold lookupScript.
  destruct (assoc key CLAWD_SCRIPT_COMMANDS) as [def|] eqn:Hassoc.
  - split; [discriminate|]. intros [Hout _].
    apply assoc_None_iff in Hout. congruence.
  - apply assoc_None_iff in Hassoc.
    destruct (existsb (String.eqb key) inheritedKeys) eqn:Hin.
    + apply existsb_eqb_iff in Hin. split; [discriminate | tauto].
    + split; [|reflexivity]. intros _. split; [exact Hassoc|].
      intros Hk. apply existsb_eqb_iff in Hk. congruence.
Qed.

(** ** One call of [handleScriptCommand] *)

Lemma length_slice4000 (s : string) :
  (String.length (slice4000 s) <= 4000)%nat.
Proof.
  unfold slice4000. generalize 4000%nat as n.
  induction s as [|c s IH]; intros [|n]; simpl; try lia.
  specialize (IH n). lia.
Qed.

Lemma orString_nonempty (a : option string) (b : string) :
  b <> EmptyString -> orString a b <> EmptyString.
Proof.
  intros Hb. unfold orString, truthy.
  destruct a as [s|]; simpl; [|exact Hb].
  destruct (String.eqb_spec s EmptyString); simpl; assumption.
Qed.

Lemma orString_length (s b : string) (n : nat) :
  (String.length s <= n)%nat -> (String.length b <= n)%nat ->
  (String.length (orString (Some s) b) <= n)%nat.
Proof.
  intros Hs Hb. unfold orString, truthy.
  destruct (String.eqb s EmptyString); simpl; assumption.
Qed.

Lemma handleScriptCommand_step sys w params allow :
  ScriptStep sys w params allow (handleScriptCommand sys w params allow).
Proof.
  unfold handleScriptCommand.
  destruct allow; simpl; [|apply StepDeclined; by left].
  destruct (lookupScript (commandBodyNormalized (command params)))
    as [def| |] eqn:Hlookup; simpl;
    [| |apply StepDeclined; by right].
  - destruct (isAuthorizedSender (command params)) eqn:Hauth; simpl;
      [|apply StepUnauthorized; congruence].
    destruct (restart def) eqn:Hrestart.
    + destruct (lockIsFresh sys w SCRIPT_LOCK) eqn:Hfresh;
        [eapply StepBusy; eauto|].
      destruct (spawnThrows sys) eqn:Hspawn.
      * eapply StepSpawnFailed; eauto.
      * eapply StepSpawned; eauto.
    + destruct (execOutcome sys) as [stdout stderr|stdout stderr message].
      * eapply (StepExecuted _ _ _ _ def _ eq_refl Hauth Hlookup Hrestart).
        -- by apply orString_nonempty.
        -- apply orString_length; [|apply Nat.leb_le; vm_compute; reflexivity].
           pose proof (length_slice4000
             (stripAnsi (trim (stdout ++
                (if String.eqb stderr EmptyString then EmptyString
                 else LF ++ stderr))%string))).
           lia.
      * eapply (StepExecuted _ _ _ _ def _ eq_refl Hauth Hlookup Hrestart).
        -- unfold commandFailedText. cbn [String.append]. discriminate.
        -- rewrite !length_append.
           match goal with
           | |- context [slice4000 ?x] => pose proof (length_slice4000 x)
           end.
           assert (String.length commandFailedText + String.length LF <= 96)%nat
             by (apply Nat.leb_le; vm_compute; reflexivity).
           lia.
  - destruct (isAuthorizedSender (command params)) eqn:Hauth; simpl;
      [by apply StepInherited | apply StepUnauthorized; congruence].
Qed.


Lemma truthy_nonempty (o : option string) (s : string) :
  truthy o = Some s -> s <> EmptyString.
Proof.
  destruct o as [t|]; simpl; [|discriminate].
  destruct (String.eqb_spec t EmptyString); congruence.
Qed.

Lemma handleBranchCommand_step sys w params allow :
  BranchStep sys w params allow (handleBranchCommand sys w params allow).
Proof.
  unfold handleBranchCommand.
  destruct allow; simpl; [|apply BranchDeclined; by left].
  destruct (String.eqb_spec (commandBodyNormalized (command params)) "/main")
    as [Hmain|Hmain]; simpl.
  - rewrite andb_false_r.
    destruct (isAuthorizedSender (command params)) eqn:Hauth; simpl;
      [|by apply BranchUnauthorized].
    destruct (lockIsFresh sys w BRANCH_LOCK) eqn:Hfresh;
      [by apply BranchBusy|].
    fold (currentBranchOf sys). fold (chatIdOf params).
    destruct (String.eqb_spec (currentBranchOf sys) "main") as [Hcur|Hcur];
      [by apply BranchAlreadyMain|].
    destruct (spawnThrows sys) eqn:Hspawn;
      [by apply BranchSpawnThrows | by apply BranchToMain].
  - rewrite andb_true_r.
    destruct (branchCommandMatch (commandBodyNormalized (command params)))
      as [group|] eqn:Hmatch.
    + rewrite bool_decide_eq_true_2 by eauto. simpl.
      destruct (isAuthorizedSender (command params)) eqn:Hauth; simpl;
        [|by apply BranchUnauthorized].
      destruct (lockIsFresh sys w BRANCH_LOCK) eqn:Hfresh;
        [by apply BranchBusy|].
      fold (currentBranchOf sys). fold (chatIdOf params).
      destruct (truthy (option_map trim group)) as [target|] eqn:Htarget.
      * destruct (spawnThrows sys) eqn:Hspawn; [by apply BranchSpawnThrows|].
        destruct group as [group|]; [|discriminate].
        pose proof (truthy_nonempty _ _ Htarget) as Hne.
        apply truthy_Some in Htarget. injection Htarget as Htarget.
        eapply BranchSwitch; eauto.
      * eapply BranchUsage; eauto.
    + rewrite bool_decide_eq_false_2 by (intros [? ?]; discriminate). simpl.
      apply BranchDeclined. by right.
Qed.


(** ** [handleScriptCommand] *)

(** X1: [handleScriptCommand] answers [null] exactly when text commands
    are not allowed or the command body is neither a key of the table nor a
    property name inherited from [Object.prototype]; the world is then
    untouched. *)
Theorem script_command_declined_iff sys w params allow :
  let body := commandBodyNormalized (command params) in
  let r := handleScriptCommand sys w params allow in
  (fst r = Returned None <->
     allow = false \/
     ((body ∉ map fst CLAWD_SCRIPT_COMMANDS) /\ (body ∉ inheritedKeys))) /\
  (fst r = Returned None -> snd r = w).
Proof.
  intros body r. subst body r. rewrite <- lookupScript_Absent_iff.
  destruct (handleScriptCommand_step sys w params allow); simpl;
    (split; [split|]); try discriminate; try tauto;
    intros [?|?]; congruence.
Qed.

(** X2: a message of an unauthorized sender never starts or runs anything
    and never touches a file, in either handler; the handler answers [null]
    or stops the dispatch without a reply. *)
Theorem unauthorized_sender_never_acts sys w params allow :
  isAuthorizedSender (command params) = false ->
  let s := handleScriptCommand sys w params allow in
  let b := handleBranchCommand sys w params allow in
  (files (snd s) = files w /\ spawned (snd s) = spawned w /\
   executed (snd s) = executed w /\
   (fst s = Returned None \/ fst s = Returned (Some (mkResult false None)))) /\
  (files (snd b) = files w /\ spawned (snd b) = spawned w /\
   executed (snd b) = executed w /\
   (fst b = Returned None \/ fst b = Returned (Some (mkResult false None)))).
Proof.
  intros Hauth s b. subst s b. split.
  - destruct (handleScriptCommand_step sys w params allow); simpl;
      try congruence; tauto.
  - destruct (handleBranchCommand_step sys w params allow); simpl;
      try congruence; tauto.
Qed.

Lemma fresh_lock_call sys w params allow stat :
  files w !! SCRIPT_LOCK = Some stat ->
  now sys - mtimeMs stat < 300000 ->
  files (snd (handleScriptCommand sys w params allow)) = files w /\
  spawned (snd (handleScriptCommand sys w params allow)) = spawned w.
Proof.
  intros Hlock Hage.
  assert (Hfresh : lockIsFresh sys w SCRIPT_LOCK = true).
  { unfold lockIsFresh. rewrite Hlock. by apply Z.ltb_lt. }
  destruct (handleScriptCommand_step sys w params allow); simpl;
    try congruence; tauto.
Qed.

Lemma fresh_lock_run calls w stat :
  files w !! SCRIPT_LOCK = Some stat ->
  Forall (fun call : Call => now (fst (fst call)) - mtimeMs stat < 300000) calls ->
  files (runScriptCommands calls w) = files w /\
  spawned (runScriptCommands calls w) = spawned w.
Proof.
  intros Hlock Hcalls. revert w Hlock.
  induction Hcalls as [|[[sys params] allow] calls Hage _ IH]; intros w Hlock;
    simpl; [tauto|].
  destruct (fresh_lock_call sys w params allow stat Hlock Hage) as [Hf Hs].
  destruct (IH (snd (handleScriptCommand sys w params allow))) as [Hf' Hs'].
  { by rewrite Hf. }
  split; congruence.
Qed.

(** X3: while the restart lock is younger than five minutes, no sequence
    of messages makes [handleScriptCommand] start a process or change a
    file, whoever sends them and whatever they ask. *)
Theorem fresh_restart_lock_blocks_every_spawn calls w stat :
  files w !! SCRIPT_LOCK = Some stat ->
  Forall (fun call : Call => now (fst (fst call)) - mtimeMs stat < 300000) calls ->
  files (runScriptCommands calls w) = files w /\
  spawned (runScriptCommands calls w) = spawned w.
Proof. apply fresh_lock_run. Qed.

(** X4: when a call of [handleScriptCommand] starts a process, it is a
    restart script of the table, started once and without arguments, the
    lock was not fresh, the lock file now carries the time of the call and
    the command, and no later message handled less than five minutes after
    that call starts another process. *)
Theorem restart_spawn_takes_the_lock sys w params allow :
  let body := commandBodyNormalized (command params) in
  let r := handleScriptCommand sys w params allow in
  spawned (snd r) <> spawned w ->
  exists def,
    lookupScript body = Own def /\ restart def = true /\
    isAuthorizedSender (command params) = true /\
    lockIsFresh sys w SCRIPT_LOCK = false /\
    fst r = replyWith restartStartedText /\
    spawned (snd r) = spawned w ++ [(expandedPathOf sys def, [])] /\
    files (snd r) !! SCRIPT_LOCK
      = Some (mkStat (now sys) (body ++ " started at " ++ isoNow sys)%string) /\
    forall calls,
      Forall (fun call : Call => now (fst (fst call)) - now sys < 300000) calls ->
      spawned (runScriptCommands calls (snd r)) = spawned (snd r).
Proof.
  intros body r. subst body r.
  destruct (handleScriptCommand_step sys w params allow); simpl;
    try congruence.
  intros _. exists def. repeat (split; [assumption || reflexivity|]).
  split; [apply lookup_insert_eq|].
  intros calls Hcalls.
  match goal with
  | |- spawned (runScriptCommands calls ?w') = _ =>
      destruct (fresh_lock_run calls w'
                  (mkStat (now sys)
                     (commandBodyNormalized (command params)
                      ++ " started at " ++ isoNow sys)%string))
        as [_ Hs]; [simpl; apply lookup_insert_eq | exact Hcalls | exact Hs]
  end.
Qed.

(** X5: when [spawn] throws, the restart command removes the lock file it
    has just written, a stale one included: nothing is started, the reply
    says so, and the lock does not block the next restart. *)
Theorem spawn_failure_releases_the_lock sys w params def :
  lookupScript (commandBodyNormalized (command params)) = Own def ->
  restart def = true ->
  isAuthorizedSender (command params) = true ->
  lockIsFresh sys w SCRIPT_LOCK = false ->
  spawnThrows sys = true ->
  let r := handleScriptCommand sys w params true in
  fst r = replyWith spawnFailedText /\
  files (snd r) = delete SCRIPT_LOCK (files w) /\
  spawned (snd r) = spawned w /\
  forall sys', lockIsFresh sys' (snd r) SCRIPT_LOCK = false.
Proof.
  intros Hlookup Hrestart Hauth Hfresh Hthrows r. subst r.
  destruct (handleScriptCommand_step sys w params true); simpl;
    try congruence.
  - destruct H; congruence.
  - split; [reflexivity|]. split; [apply delete_insert_eq|].
    split; [reflexivity|]. intros sys'. unfold lockIsFresh. simpl.
    by rewrite lookup_delete_eq.
Qed.

(** X6: a command of the table that is not a restart command runs its
    script once even while the restart lock is fresh; it starts no detached
    process, leaves every file as it was, and always replies with a
    non-empty text. *)
Theorem info_command_ignores_the_lock sys w params def :
  lookupScript (commandBodyNormalized (command params)) = Own def ->
  restart def = false ->
  isAuthorizedSender (command params) = true ->
  let r := handleScriptCommand sys w params true in
  files (snd r) = files w /\
  spawned (snd r) = spawned w /\
  executed (snd r) = executed w ++ [expandedPathOf sys def] /\
  exists text, fst r = replyWith text /\ text <> EmptyString.
Proof.
  intros Hlookup Hrestart Hauth r. subst r.
  destruct (handleScriptCommand_step sys w params true); simpl;
    try congruence.
  - destruct H; congruence.
  - assert (def0 = def) as -> by congruence. eauto 10.
Qed.

(** X7: whatever the script prints, a reply of [handleScriptCommand] is at
    most 4096 characters long, and every handled command stops the
    dispatch. *)
Theorem script_reply_fits_a_message sys w params allow result :
  fst (handleScriptCommand sys w params allow) = Returned (Some result) ->
  shouldContinue result = false /\
  forall text, reply result = Some text -> (String.length text <= 4096)%nat.
Proof.
  destruct (handleScriptCommand_step sys w params allow); simpl;
    intros [= <-]; simpl; (split; [reflexivity|]); intros text' [= <-];
    try (apply Nat.leb_le; vm_compute; reflexivity).
  assumption.
Qed.


(** ** Cleaning the output *)

Lemma stripAnsiFrom_skip (a rest : string) :
  stripAnsiFrom (String.length a) (a ++ rest) = stripAnsiFrom O rest.
Proof. induction a as [|c a IH]; simpl; [reflexivity | exact IH]. Qed.

Lemma paramsThenM_params (p rest : string) :
  allAnsiParams p = true ->
  paramsThenM (p ++ String "m" rest) = Some (String.length p).
Proof.
  induction p as [|c p IH]; simpl; [reflexivity|].
  intros [Hc Hp]%andb_true_iff. rewrite Hc, (IH Hp). reflexivity.
Qed.

Lemma stripAnsi_sgr (p rest : string) :
  allAnsiParams p = true ->
  stripAnsi (sgr p ++ rest) = stripAnsi rest.
Proof.
  intros Hp. unfold stripAnsi.
  change (sgr p ++ rest)%string
    with (String ESC (String "[" ((p ++ "m") ++ rest)))%string.
  rewrite append_assoc.
  change ("m" ++ rest)%string with (String "m" rest).
  cbn [stripAnsiFrom ansiMatch].
  change (Ascii.eqb ESC ESC && Ascii.eqb "[" "[")%bool with true. cbv iota.
  rewrite (paramsThenM_params p rest Hp). cbn [option_map].
  replace (Nat.pred (String.length p + 3)) with (S (String.length p + 1)) by lia.
  cbn [stripAnsiFrom].
  replace (String.length p + 1)%nat
    with (String.length (p ++ String "m" EmptyString))
    by (rewrite length_append; reflexivity).
  change (String "m" rest) with (String "m" EmptyString ++ rest)%string.
  rewrite <- append_assoc.
  apply stripAnsiFrom_skip.
Qed.

Lemma stripAnsi_plain (t rest : string) :
  hasEscape t = false ->
  stripAnsi (t ++ rest) = (t ++ stripAnsi rest)%string.
Proof.
  unfold stripAnsi. induction t as [|c t IH]; [reflexivity|].
  cbn [hasEscape]. intros [Hc Ht]%orb_false_iff.
  change (String c t ++ rest)%string with (String c (t ++ rest)).
  cbn [stripAnsiFrom].
  assert (Hno : ansiMatch (String c (t ++ rest)) = None).
  { unfold ansiMatch. destruct (t ++ rest)%string; [reflexivity|].
    by rewrite Hc. }
  rewrite Hno, (IH Ht). reflexivity.
Qed.

Lemma stripAnsiFrom_length (skip : nat) (s : string) :
  (String.length (stripAnsiFrom skip s) <= String.length s)%nat.
Proof.
  revert skip. induction s as [|c s IH]; intros skip; [simpl; lia|].
  cbn [stripAnsiFrom].
  destruct skip as [|k]; [|specialize (IH k); simpl; lia].
  destruct (ansiMatch (String c s)) as [n|].
  - specialize (IH (Nat.pred n)). simpl. lia.
  - specialize (IH O). simpl. lia.
Qed.

(** X8: the colour stripping of the script output removes every complete
    colour sequence that follows plain text, leaves text without an escape
    character as it is, and never makes the text longer. *)
Theorem stripAnsi_removes_colour_sequences (plain params rest : string) :
  hasEscape plain = false ->
  allAnsiParams params = true ->
  stripAnsi (plain ++ sgr params ++ rest) = (plain ++ stripAnsi rest)%string /\
  stripAnsi plain = plain /\
  (String.length (stripAnsi rest) <= String.length rest)%nat.
Proof.
  intros Hplain Hparams. split; [|split].
  - by rewrite stripAnsi_plain, stripAnsi_sgr.
  - pose proof (stripAnsi_plain plain EmptyString Hplain) as H.
    assert (Hnil : forall s : string, (s ++ EmptyString)%string = s).
    { clear. induction s as [|c s IH]; [reflexivity|].
      change (String c (s ++ EmptyString) = String c s)%string.
      by rewrite IH. }
    rewrite Hnil in H. rewrite H. apply Hnil.
  - apply stripAnsiFrom_length.
Qed.

(** ** The table *)

Ltac each_key H :=
  repeat (apply elem_of_cons in H as [H|H]);
  [..|by apply elem_of_nil in H].

(** X9: every legacy alias [/clawd-<name>] of the table runs the same
    script, with the same restart flag, as the short command [/<name>]. *)
Theorem legacy_alias_runs_the_same_script (name : string) (def : ScriptDef) :
  lookupScript ("/clawd-" ++ name) = Own def ->
  lookupScript ("/" ++ name) = Own def.
Proof.
  unfold lookupScript at 1.
  destruct (assoc ("/clawd-" ++ name) CLAWD_SCRIPT_COMMANDS) as [d|] eqn:Hassoc.
  2:{ destruct (existsb _ _); discriminate. }
  intros [= ->]. apply assoc_Some_elem in Hassoc.
  unfold CLAWD_SCRIPT_COMMANDS in Hassoc. each_key Hassoc;
    injection Hassoc as Hname ->; try discriminate;
    change (EmptyString ++ name)%string with name in Hname;
    subst name; vm_compute; reflexivity.
Qed.

Lemma script_keys_are_not_branch_commands (body : string) :
  lookupScript body <> Absent ->
  branchCommandMatch body = None /\ String.eqb body "/main" = false.
Proof.
  intros Hknown.
  destruct (decide (body ∈ map fst CLAWD_SCRIPT_COMMANDS)) as [Hin|Hout].
  - cbn in Hin. each_key Hin; subst body; vm_compute; split; reflexivity.
  - destruct (decide (body ∈ inheritedKeys)) as [Hin|Hout'].
    + unfold inheritedKeys in Hin.
      each_key Hin; subst body; vm_compute; split; reflexivity.
    + destruct Hknown. by apply lookupScript_Absent_iff.
Qed.

(** X10: no message is handled by both handlers: a command body that
    [handleScriptCommand] does not decline is declined by
    [handleBranchCommand], which then leaves the world as it is. *)
Theorem script_and_branch_commands_are_disjoint
    sys w sys' w' params allow allow' :
  fst (handleScriptCommand sys w params allow) <> Returned None ->
  handleBranchCommand sys' w' params allow' = (Returned None, w').
Proof.
  intros Hhandled.
  assert (Hknown : lookupScript (commandBodyNormalized (command params)) <> Absent).
  { intros Habs. apply Hhandled. unfold handleScriptCommand. rewrite Habs.
    by rewrite orb_true_r. }
  destruct (script_keys_are_not_branch_commands _ Hknown) as [Hbranch Hmain].
  unfold handleBranchCommand. rewrite Hbranch, Hmain.
  rewrite bool_decide_eq_false_2 by (intros [? ?]; discriminate).
  by rewrite orb_true_r.
Qed.


(** ** White space *)

Lemma trimStart_whitespace (ws s : string) :
  allWhiteSpace ws = true -> trimStart (ws ++ s) = trimStart s.
Proof.
  induction ws as [|c ws IH]; [reflexivity|].
  cbn [allWhiteSpace]. intros [Hc Hws]%andb_true_iff.
  change (String c ws ++ s)%string with (String c (ws ++ s)).
  cbn [trimStart]. rewrite Hc. by apply IH.
Qed.

Lemma branchCommandMatch_group (body group : string) :
  branchCommandMatch body = Some (Some group) ->
  hasLineTerminator group = false.
Proof.
  unfold branchCommandMatch.
  destruct (String.prefix "/branch" body); [|discriminate].
  destruct (dropChars 7 body) as [|c rest] eqn:Hrest; [discriminate|].
  destruct (_ =? _)%nat; [discriminate|].
  destruct (trimStart (String c rest)) as [|t tail] eqn:Htail.
  - destruct (lastChar (String c rest)) as [l|]; [|discriminate].
    destruct (isLineTerminator l) eqn:Hl.
    + rewrite andb_false_r. discriminate.
    + destruct (_ <=? _)%nat; [|discriminate].
      intros [= <-]. cbn [hasLineTerminator]. by rewrite Hl.
  - destruct (hasLineTerminator (String t tail)) eqn:Hlt; [discriminate|].
    by intros [= <-].
Qed.

(** ** [handleBranchCommand] *)

(** X11: [handleBranchCommand] reads the branch lock but never writes or
    removes a file and never runs a command to completion: after any
    sequence of messages every file, the lock included, is as before. *)
Theorem branch_handler_never_takes_the_lock calls w :
  files (runBranchCommands calls w) = files w /\
  executed (runBranchCommands calls w) = executed w /\
  forall sys, lockIsFresh sys (runBranchCommands calls w) BRANCH_LOCK
              = lockIsFresh sys w BRANCH_LOCK.
Proof.
  assert (Hrun : files (runBranchCommands calls w) = files w /\
                 executed (runBranchCommands calls w) = executed w).
  { revert w. induction calls as [|[[sys params] allow] calls IH]; intros w;
      simpl; [tauto|].
    destruct (IH (snd (handleBranchCommand sys w params allow))) as [-> ->].
    destruct (handleBranchCommand_step sys w params allow); simpl; tauto. }
  destruct Hrun as [Hfiles Hexec]. split; [exact Hfiles|]. split; [exact Hexec|].
  intros sys. unfold lockIsFresh. by rewrite Hfiles.
Qed.

(** X12: when [handleBranchCommand] starts a process, the sender is
    authorized, the branch lock is not fresh, and the process is the branch
    switch script with exactly three arguments: a target branch that is not
    empty, holds no line terminator and has no white space around it, the
    chat id, and the current branch. *)
Theorem branch_spawn_arguments sys w params allow :
  let r := handleBranchCommand sys w params allow in
  spawned (snd r) <> spawned w ->
  allow = true /\ isAuthorizedSender (command params) = true /\
  lockIsFresh sys w BRANCH_LOCK = false /\
  exists target,
    spawned (snd r)
      = spawned w ++ [(BRANCH_SWITCH_SCRIPT,
                       [target; chatIdOf params; currentBranchOf sys])] /\
    target <> EmptyString /\
    hasLineTerminator target = false /\
    trim target = target.
Proof.
  intros r. subst r.
  destruct (handleBranchCommand_step sys w params allow); simpl;
    try congruence; intros _; repeat (split; [assumption|]).
  - exists "main"%string. repeat split. discriminate.
  - exists target. subst target. split; [reflexivity|]. split; [assumption|].
    split; [|apply trim_idempotent].
    eapply trim_no_terminator, branchCommandMatch_group. eassumption.
Qed.

(** X13: [/main] starts nothing when git reports [main] or the git query
    fails: an authorized sender with no fresh lock is told that the branch
    is already [main], and the world stays as it is. *)
Theorem main_command_on_main_is_a_no_op sys w params allow :
  commandBodyNormalized (command params) = "/main"%string ->
  currentBranchOf sys = "main"%string ->
  let r := handleBranchCommand sys w params allow in
  spawned (snd r) = spawned w /\ files (snd r) = files w /\
  fst r <> Rejected /\
  (allow = true -> isAuthorizedSender (command params) = true ->
   lockIsFresh sys w BRANCH_LOCK = false ->
   r = (replyWith alreadyOnMainText, w)).
Proof.
  intros Hbody Hcur r. subst r. unfold handleBranchCommand.
  fold (currentBranchOf sys). rewrite Hbody, Hcur. simpl.
  rewrite ?andb_false_r.
  destruct allow; simpl; [|by repeat split].
  destruct (isAuthorizedSender (command params)); simpl;
    [|repeat split; congruence].
  destruct (lockIsFresh sys w BRANCH_LOCK); by repeat split.
Qed.

(** X14: [/branch], white space and a branch name without line terminator
    is understood as a switch to that name: for an authorized sender with
    no fresh lock the branch switch script is started with the trimmed
    name, the chat id and the current branch. *)
Theorem branch_command_switches_to_the_named_branch
    sys w params (ws name : string) :
  commandBodyNormalized (command params) = ("/branch" ++ ws ++ name)%string ->
  ws <> EmptyString -> allWhiteSpace ws = true ->
  startsClean name -> name <> EmptyString ->
  hasLineTerminator name = false ->
  isAuthorizedSender (command params) = true ->
  lockIsFresh sys w BRANCH_LOCK = false ->
  spawnThrows sys = false ->
  branchCommandMatch ("/branch" ++ ws ++ name) = Some (Some name) /\
  trim name <> EmptyString /\
  handleBranchCommand sys w params true =
    (replyWith ("Switching to branch `" ++ trim name
                ++ "`. I'll notify you when complete.")%string,
     spawnDetached w BRANCH_SWITCH_SCRIPT
       [trim name; chatIdOf params; currentBranchOf sys]).
Proof.
  intros Hbody Hws Hall Hclean Hname Hlt Hauth Hfresh Hspawn.
  assert (Hmatch : branchCommandMatch ("/branch" ++ ws ++ name)
                   = Some (Some name)).
  { unfold branchCommandMatch.
    change ("/branch" ++ ws ++ name)%string
      with (String "/" (String "b" (String "r" (String "a" (String "n"
             (String "c" (String "h" (ws ++ name)))))))).
    cbn [String.prefix dropChars].
    repeat (destruct (ascii_dec _ _) as [_|Hne]; [|by destruct Hne]).
    destruct ws as [|c ws]; [by destruct Hws|].
    change (String c ws ++ name)%string with (String c (ws ++ name)).
    assert (Htail : trimStart (String c (ws ++ name)) = name).
    { change (String c (ws ++ name)) with (String c ws ++ name)%string.
      rewrite (trimStart_whitespace (String c ws) name Hall).
      by apply trimStart_clean. }
    cbv zeta. rewrite Htail.
    assert (Hlen : (String.length name =? String.length (String c (ws ++ name)))%nat
                   = false).
    { apply Nat.eqb_neq. cbn [String.length]. rewrite length_append. lia. }
    rewrite Hlen.
    destruct name as [|n name]; [by destruct Hname|].
    by rewrite Hlt. }
  assert (Htrim : trim name <> EmptyString).
  { destruct name as [|n name]; [by destruct Hname|].
    unfold trim. rewrite (trimStart_clean _ Hclean).
    cbn [trimEnd]. simpl in Hclean.
    destruct (trimEnd name); [by rewrite Hclean|]; discriminate. }
  split; [exact Hmatch|]. split; [exact Htrim|].
  unfold handleBranchCommand. rewrite Hbody, Hmatch, Hauth, Hfresh, Hspawn.
  fold (currentBranchOf sys). fold (chatIdOf params).
  rewrite bool_decide_eq_true_2 by eauto.
  cbn [negb orb andb option_map].
  assert (Hne : String.eqb ("/branch" ++ ws ++ name) "/main" = false).
  { apply String.eqb_neq. discriminate. }
  rewrite Hne.
  assert (Ht : truthy (Some (trim name)) = Some (trim name)).
  { unfold truthy. destruct (String.eqb_spec (trim name) EmptyString);
      [contradiction | reflexivity]. }
  by rewrite Ht.
Qed.

End CommandsScriptsFacts.

(** * More about the block-streaming resolvers *)
Section ResolverFacts.

Context {env : Collaborators}.

Import StringFacts.

Local Open Scope Z_scope.

(** ** Provider names *)

(** X15: a provider key that [normalizeChunkProvider] returns is a member
    of the registered provider set, is already trimmed and lowercased, and
    is returned unchanged when normalized again. *)
Theorem normalizeChunkProvider_idempotent provider key :
  normalizeChunkProvider provider = Some key ->
  key ∈ BLOCK_CHUNK_PROVIDERS /\
  toLowerCase (trim key) = key /\
  (key <> EmptyString -> normalizeChunkProvider (Some key) = Some key).
Proof.
  unfold normalizeChunkProvider.
  destruct (truthy provider) as [raw|]; [|discriminate].
  destruct (bool_decide (toLowerCase (trim raw) ∈ BLOCK_CHUNK_PROVIDERS))
    eqn:Hin; [|discriminate].
  intros [= <-]. apply bool_decide_eq_true_1 in Hin.
  split; [exact Hin|]. split; [apply cleaned_is_clean|].
  intros Hne. unfold truthy.
  destruct (String.eqb_spec (toLowerCase (trim raw)) EmptyString);
    [contradiction|].
  rewrite cleaned_is_clean. by rewrite bool_decide_eq_true_2.
Qed.

(** X16: provider names are matched without regard to letter case and to
    surrounding white space: a raw provider string and its trimmed,
    lowercased form give the same chunking and the same coalescing. *)
Theorem provider_matching_ignores_case_and_padding
    cfg (raw : string) accountId chunking :
  toLowerCase (trim raw) <> EmptyString ->
  resolveBlockStreamingChunking cfg (Some raw) accountId
    = resolveBlockStreamingChunking cfg (Some (toLowerCase (trim raw))) accountId /\
  resolveBlockStreamingCoalescing cfg (Some raw) accountId chunking
    = resolveBlockStreamingCoalescing cfg (Some (toLowerCase (trim raw)))
        accountId chunking.
Proof.
  intros Hne.
  assert (Hsame : normalizeChunkProvider (Some raw)
                  = normalizeChunkProvider (Some (toLowerCase (trim raw)))).
  { unfold normalizeChunkProvider, truthy.
    destruct (String.eqb_spec raw EmptyString) as [->|_];
      [by destruct Hne|].
    destruct (String.eqb_spec (toLowerCase (trim raw)) EmptyString);
      [contradiction|].
    by rewrite cleaned_is_clean. }
  unfold resolveBlockStreamingChunking, resolveBlockStreamingCoalescing.
  by rewrite Hsame.
Qed.

(** ** Break preference *)

Lemma pickBreakPreference_valid (raw : option string) :
  pickBreakPreference raw = "paragraph"%string \/
  pickBreakPreference raw = "newline"%string \/
  pickBreakPreference raw = "sentence"%string.
Proof.
  destruct raw as [s|]; simpl; [|by left].
  destruct (String.eqb_spec s "newline") as [->|_]; [right; by left|].
  destruct (String.eqb_spec s "sentence") as [->|_]; [right; by right|].
  by left.
Qed.

Lemma pickBreakPreference_other (s : string) :
  s <> "newline"%string -> s <> "sentence"%string ->
  pickBreakPreference (Some s) = "paragraph"%string.
Proof.
  intros Hn Hs. simpl.
  apply String.eqb_neq in Hn, Hs. by rewrite Hn, Hs.
Qed.

(** X17: both chunking resolvers return one of the three break
    preferences; a configured value other than "newline" and "sentence",
    like a missing one, resolves to "paragraph", and a coalescing call fed
    with the chunking result joins with a space, a line feed or a blank
    line accordingly. *)
Theorem break_preference_is_one_of_three cfg provider accountId :
  let c := resolveBlockStreamingChunking cfg provider accountId in
  let d := resolveTelegramDraftStreamingChunking cfg accountId in
  let valid (p : string) :=
    p = "paragraph"%string \/ p = "newline"%string \/ p = "sentence"%string in
  valid (Chunking.breakPreference c) /\
  valid (Chunking.breakPreference d) /\
  (forall raw,
     chunkCfgOf cfg ?> ChunkCfg.breakPreference = Some raw ->
     raw <> "newline"%string -> raw <> "sentence"%string ->
     Chunking.breakPreference c = "paragraph"%string) /\
  (forall raw,
     draftCfgOf cfg accountId ?> ChunkCfg.breakPreference = Some raw ->
     raw <> "newline"%string -> raw <> "sentence"%string ->
     Chunking.breakPreference d = "paragraph"%string) /\
  exists k,
    resolveBlockStreamingCoalescing cfg provider accountId (Some c) = Some k /\
    (BlockStreamingCoalescing.joiner k = " "%string \/
     BlockStreamingCoalescing.joiner k = LF \/
     BlockStreamingCoalescing.joiner k = (LF ++ LF)%string).
Proof.
  intros c d valid. subst c d valid. cbv beta.
  rewrite chunking_closed_form, telegram_closed_form. cbv zeta.
  cbn [Chunking.breakPreference].
  split; [apply pickBreakPreference_valid|].
  split; [apply pickBreakPreference_valid|].
  split; [intros raw ->; apply pickBreakPreference_other|].
  split; [intros raw ->; apply pickBreakPreference_other|].
  eexists. split; [apply coalescing_unfold|].
  rewrite coalescingFrom_closed_form. cbv zeta.
  cbn [BlockStreamingCoalescing.joiner option_map Chunking.breakPreference].
  destruct (pickBreakPreference_valid
              (chunkCfgOf cfg ?> ChunkCfg.breakPreference)) as [-> | [-> | ->]];
    simpl; tauto.
Qed.


(** ** Layers of the configuration *)

(** X18: the coalescing override is read from the provider section only
    when that section is an object: without a configuration, without a
    recognized provider, or with a section that is missing or holds some
    other value, the agent-level default is the coalescing block. *)
Theorem provider_section_must_be_an_object cfg provider accountId chunking :
  (forall c key,
     cfg = Some c ->
     truthy (normalizeChunkProvider provider) = Some key ->
     Config.providers c !! key = None \/ Config.providers c !! key = Some CfgOther) ->
  resolveProviderBlockStreamingCoalesce cfg (normalizeChunkProvider provider)
    accountId = None /\
  resolveBlockStreamingCoalescing cfg provider accountId chunking =
    Some (coalescingFrom (agentCoalesceOf cfg) (providerDefaultsOf provider)
            (hardLimit cfg provider accountId) chunking).
Proof.
  intros Hsection.
  assert (Hnone : resolveProviderBlockStreamingCoalesce cfg
                    (normalizeChunkProvider provider) accountId = None).
  { unfold resolveProviderBlockStreamingCoalesce.
    destruct cfg as [c|]; [|reflexivity].
    destruct (truthy (normalizeChunkProvider provider)) as [key|] eqn:Hkey;
      [|reflexivity].
    by destruct (Hsection c key eq_refl eq_refl) as [-> | ->]. }
  split; [exact Hnone|].
  rewrite coalescing_unfold. unfold coalesceCfgOf. by rewrite Hnone.
Qed.

(** X19: in the Telegram draft resolver an account entry with a
    [draftChunk] block of its own shadows the provider-level [draftChunk]
    as a whole: sizes and break preference come from the account block and
    the built-in 200 / 800, never from the provider-level block. *)
Theorem account_draft_chunk_shadows_provider_draft_chunk
    c accountId typed accounts account block :
  Config.providers c !! "telegram"%string = Some (CfgObject typed) ->
  ProviderCfg.accounts typed = Some accounts ->
  accounts !! normalizeAccountId accountId = Some account ->
  AccountCfg.draftChunk account = Some block ->
  let zmax :=
    Z.max 1 (clampToLimit (orDefault (ChunkCfg.maxChars block) 800%Q)
               (telegramHardLimit (Some c) accountId)) in
  draftCfgOf (Some c) accountId = Some block /\
  resolveTelegramDraftStreamingChunking (Some c) accountId =
    Chunking.mk
      (inject_Z (Z.min (Z.max 1 (Qfloor (orDefault (ChunkCfg.minChars block) 200%Q)))
                       zmax))
      (inject_Z zmax)
      (pickBreakPreference (ChunkCfg.breakPreference block)).
Proof.
  intros Hsec Haccs Hacc Hblock zmax.
  assert (Hdraft : draftCfgOf (Some c) accountId = Some block).
  { unfold draftCfgOf. simpl. rewrite Hsec. simpl. rewrite Haccs. simpl.
    rewrite Hacc. simpl. by rewrite Hblock. }
  split; [exact Hdraft|].
  rewrite telegram_closed_form, Hdraft. reflexivity.
Qed.

(** ** Sizes *)

(** X20: without any configuration the general chunking resolver returns
    800 / 1200 / "paragraph" for every provider string and account whose
    hard limit is at least 1200, and a smaller hard limit caps both
    sizes. *)
Theorem chunking_defaults_without_configuration provider accountId :
  let L := hardLimit None provider accountId in
  (1200 <= L ->
   resolveBlockStreamingChunking None provider accountId
     = Chunking.mk 800%Q 1200%Q "paragraph") /\
  (1 <= L -> L <= 800 ->
   resolveBlockStreamingChunking None provider accountId
     = Chunking.mk (inject_Z L) (inject_Z L) "paragraph").
Proof.
  intros L. subst L. rewrite chunking_closed_form. cbv zeta.
  change (chunkCfgOf None) with (@None ChunkCfg.t).
  cbn [chain orDefault pickBreakPreference]. unfold clampToLimit.
  change (Qfloor DEFAULT_BLOCK_STREAM_MAX) with 1200.
  change (Qfloor DEFAULT_BLOCK_STREAM_MIN) with 800.
  split.
  - intros HL.
    replace (Z.max 1 (Z.min (Z.max 1 1200) (hardLimit None provider accountId)))
      with 1200 by lia.
    reflexivity.
  - intros HL1 HL2.
    replace (Z.max 1 (Z.min (Z.max 1 1200) (hardLimit None provider accountId)))
      with (hardLimit None provider accountId) by lia.
    replace (Z.min (Z.max 1 800) (hardLimit None provider accountId))
      with (hardLimit None provider accountId) by lia.
    reflexivity.
Qed.


Lemma pickBreakPreference_idempotent (raw : option string) :
  pickBreakPreference (Some (pickBreakPreference raw)) = pickBreakPreference raw.
Proof.
  destruct (pickBreakPreference_valid raw) as [-> | [-> | ->]]; reflexivity.
Qed.

(** X22: the resolved chunking is a fixed point: a configuration whose
    [blockStreamingChunk] holds the resolved [minChars], [maxChars] and
    [breakPreference] resolves, under the same hard limit, to the same
    chunking. *)
Theorem resolved_chunking_is_a_fixed_point
    cfg cfg' provider accountId :
  let r := resolveBlockStreamingChunking cfg provider accountId in
  chunkCfgOf cfg' =
    Some (ChunkCfg.mk (Some (Chunking.minChars r)) (Some (Chunking.maxChars r))
            (Some (Chunking.breakPreference r))) ->
  hardLimit cfg' provider accountId = hardLimit cfg provider accountId ->
  resolveBlockStreamingChunking cfg' provider accountId = r.
Proof.
  intros r Hcfg HL. subst r.
  rewrite (chunking_closed_form cfg'), Hcfg, HL.
  rewrite (chunking_closed_form cfg). cbv zeta.
  cbn [chain orDefault ChunkCfg.minChars ChunkCfg.maxChars
       ChunkCfg.breakPreference Chunking.minChars Chunking.maxChars
       Chunking.breakPreference].
  rewrite pickBreakPreference_idempotent, !Qfloor_Z.
  unfold clampToLimit. rewrite ?Qfloor_Z.
  f_equal; f_equal; lia.
Qed.

(** X23: a larger answer of the text-limit resolver never gives smaller
    sizes: with everything else equal, [minChars] and [maxChars] of the
    chunking and of the coalescing result grow with the hard limit. *)
Theorem sizes_grow_with_the_hard_limit
    (low high : option ClawdbotConfig -> option string -> option string ->
                option number -> Z)
    cfg provider accountId chunking :
  let c1 := @resolveBlockStreamingChunking (withTextLimit env low)
              cfg provider accountId in
  let c2 := @resolveBlockStreamingChunking (withTextLimit env high)
              cfg provider accountId in
  @hardLimit (withTextLimit env low) cfg provider accountId
    <= @hardLimit (withTextLimit env high) cfg provider accountId ->
  (Chunking.minChars c1 <= Chunking.minChars c2)%Q /\
  (Chunking.maxChars c1 <= Chunking.maxChars c2)%Q /\
  exists k1 k2,
    @resolveBlockStreamingCoalescing (withTextLimit env low)
      cfg provider accountId chunking = Some k1 /\
    @resolveBlockStreamingCoalescing (withTextLimit env high)
      cfg provider accountId chunking = Some k2 /\
    (BlockStreamingCoalescing.minChars k1
       <= BlockStreamingCoalescing.minChars k2)%Q /\
    (BlockStreamingCoalescing.maxChars k1
       <= BlockStreamingCoalescing.maxChars k2)%Q /\
    BlockStreamingCoalescing.idleMs k1 = BlockStreamingCoalescing.idleMs k2.
Proof.
  intros c1 c2 HL. subst c1 c2.
  rewrite !chunking_closed_form. cbv zeta.
  cbn [Chunking.minChars Chunking.maxChars].
  change (@chunkCfgOf) with (fun cfg0 : option ClawdbotConfig =>
    cfg0 ?> Config.agents ?> Agents.defaults ?> AgentDefaults.blockStreamingChunk).
  cbv beta. unfold clampToLimit.
  split; [rewrite <- Zle_Qle; lia|]. split; [rewrite <- Zle_Qle; lia|].
  eexists _, _. split; [apply coalescing_unfold|].
  split; [apply coalescing_unfold|].
  rewrite !coalescingFrom_closed_form. cbv zeta.
  cbn [BlockStreamingCoalescing.minChars BlockStreamingCoalescing.maxChars
       BlockStreamingCoalescing.idleMs].
  change (@coalesceCfgOf (withTextLimit env high))
    with (@coalesceCfgOf (withTextLimit env low)).
  change (@providerDefaultsOf (withTextLimit env high))
    with (@providerDefaultsOf (withTextLimit env low)).
  unfold clampToLimit.
  destruct (@coalesceCfgOf (withTextLimit env low) cfg provider accountId
              ?> CoalesceCfg.maxChars) as [m|]; cbn [orDefault];
    rewrite ?Qfloor_Z;
    (split; [rewrite <- Zle_Qle; lia|]);
    (split; [rewrite <- Zle_Qle; lia | reflexivity]).
Qed.

End ResolverFacts.

(** * The additional facts on concrete inputs *)
Module ExtraWitnesses.
Import CommandsScripts CommandsScriptsFacts ScriptSample.

Local Open Scope Z_scope.

Lemma X2_witness :
  isAuthorizedSender (command (message "/update" false)) = false /\
  spawned (snd (handleScriptCommand (sys 5000 false) emptyWorld
                  (message "/update" false) true)) = [] /\
  spawned (snd (handleBranchCommand (sys 5000 false) emptyWorld
                  (message "/update" false) true)) = [].
Proof.
  split; [reflexivity|].
  destruct (unauthorized_sender_never_acts (sys 5000 false) emptyWorld
              (message "/update" false) true eq_refl)
    as [(_ & Hs & _) (_ & Hb & _)].
  split; [exact Hs | exact Hb].
Defined.

Lemma X3_witness :
  files lockedWorld !! SCRIPT_LOCK
    = Some (mkStat 1000 "/update started at some time") /\
  spawned (runScriptCommands
             [(sys 2000 false, message "/restart" true, true);
              (sys 300999 false, message "/update" true, true)]
             lockedWorld) = [].
Proof.
  split; [reflexivity|].
  destruct (fresh_restart_lock_blocks_every_spawn
              [(sys 2000 false, message "/restart" true, true);
               (sys 300999 false, message "/update" true, true)]
              lockedWorld (mkStat 1000 "/update started at some time"))
    as [_ Hs]; [reflexivity | | exact Hs].
  repeat constructor.
Defined.

Lemma X4_witness :
  exists def,
    lookupScript "/update" = Own def /\
    spawned (snd (handleScriptCommand (sys 5000 false) emptyWorld
                    (message "/update" true) true))
      = [(expandedPathOf (sys 5000 false) def, [])].
Proof.
  destruct (restart_spawn_takes_the_lock (sys 5000 false) emptyWorld
              (message "/update" true) true)
    as (def & Hdef & _ & _ & _ & _ & Hs & _); [vm_compute; discriminate|].
  exists def. split; [exact Hdef | exact Hs].
Defined.

Lemma X5_witness :
  files (snd (handleScriptCommand (sys 400000 true) lockedWorld
                (message "/restart" true) true)) !! SCRIPT_LOCK = None.
Proof.
  destruct (spawn_failure_releases_the_lock (sys 400000 true) lockedWorld
              (message "/restart" true)
              (mkScript "~/clawd-scripts/restart.sh" true))
    as (_ & Hfiles & _);
    [reflexivity | reflexivity | reflexivity | reflexivity | reflexivity | ].
  rewrite Hfiles. apply lookup_delete_eq.
Defined.

Lemma X6_witness :
  executed (snd (handleScriptCommand (sys 2000 false) lockedWorld
                   (message "/logs" true) true))
    = ["/home/bot/clawd-scripts/logs.sh"%string].
Proof.
  destruct (info_command_ignores_the_lock (sys 2000 false) lockedWorld
              (message "/logs" true) (mkScript "~/clawd-scripts/logs.sh" false))
    as (_ & _ & He & _); [reflexivity | reflexivity | reflexivity | ].
  exact He.
Defined.

Lemma X7_witness :
  fst (handleScriptCommand (sys 2000 false) emptyWorld
         (message "/logs" true) true)
    = Returned (Some (mkResult false (Some ("ok" ++ LF ++ "warn")%string))) /\
  (String.length ("ok" ++ LF ++ "warn") <= 4096)%nat.
Proof.
  split; [vm_compute; reflexivity|].
  destruct (script_reply_fits_a_message (sys 2000 false) emptyWorld
              (message "/logs" true) true
              (mkResult false (Some ("ok" ++ LF ++ "warn")%string)))
    as [_ Hlen]; [vm_compute; reflexivity|].
  apply Hlen. reflexivity.
Defined.

Lemma X8_witness :
  stripAnsi ("ok " ++ sgr "1;32" ++ "done") = "ok done"%string.
Proof.
  destruct (stripAnsi_removes_colour_sequences "ok " "1;32" "done")
    as [Hstrip _]; [reflexivity | reflexivity | ].
  rewrite Hstrip. reflexivity.
Defined.

Lemma X9_witness :
  lookupScript "/git-status"
    = Own (mkScript "~/clawd-scripts/git-status.sh" false).
Proof.
  apply (legacy_alias_runs_the_same_script "git-status"). reflexivity.
Defined.

Lemma X10_witness :
  handleBranchCommand (sys 2000 false) emptyWorld (message "/update" true) true
    = (Returned None, emptyWorld).
Proof.
  apply (script_and_branch_commands_are_disjoint
           (sys 2000 false) emptyWorld (sys 2000 false) emptyWorld
           (message "/update" true) true true).
  vm_compute. discriminate.
Defined.

Lemma X12_witness :
  exists target,
    spawned (snd (handleBranchCommand (sys 2000 false) emptyWorld
                    (message "/branch  dev " true) true))
      = [(BRANCH_SWITCH_SCRIPT, [target; "chat-7"; "feature-x"]%string)] /\
    target <> EmptyString.
Proof.
  destruct (branch_spawn_arguments (sys 2000 false) emptyWorld
              (message "/branch  dev " true) true)
    as (_ & _ & _ & target & Hs & Hne & _); [vm_compute; discriminate|].
  exists target. split; [exact Hs | exact Hne].
Defined.

Lemma X13_witness :
  handleBranchCommand (sysOnMain 2000) emptyWorld (message "/main" true) true
    = (replyWith alreadyOnMainText, emptyWorld).
Proof.
  destruct (main_command_on_main_is_a_no_op (sysOnMain 2000) emptyWorld
              (message "/main" true) true)
    as (_ & _ & _ & Hreply); [reflexivity | reflexivity | ].
  apply Hreply; reflexivity.
Defined.

Lemma X14_witness :
  branchCommandMatch "/branch dev" = Some (Some "dev"%string) /\
  spawned (snd (handleBranchCommand (sys 2000 false) emptyWorld
                  (message "/branch dev" true) true))
    = [(BRANCH_SWITCH_SCRIPT, ["dev"; "chat-7"; "feature-x"]%string)].
Proof.
  destruct (branch_command_switches_to_the_named_branch
              (sys 2000 false) emptyWorld (message "/branch dev" true)
              " " "dev")
    as (Hmatch & _ & Hcall);
    [reflexivity | discriminate | reflexivity | reflexivity | discriminate
    | reflexivity | reflexivity | reflexivity | reflexivity | ].
  split; [exact Hmatch|]. rewrite Hcall. reflexivity.
Defined.

Lemma X15_witness :
  @normalizeChunkProvider (Sample.env 4000) (Some "telegram"%string)
    = Some "telegram"%string.
Proof.
  destruct (@normalizeChunkProvider_idempotent (Sample.env 4000)
              (Some " Telegram "%string) "telegram"%string)
    as (_ & _ & Hagain); [vm_compute; reflexivity|].
  apply Hagain. discriminate.
Defined.

Lemma X16_witness :
  @resolveBlockStreamingChunking (Sample.env 4000)
    (Some Sample.shadowedCfg) (Some " Telegram "%string) None
  = @resolveBlockStreamingChunking (Sample.env 4000)
      (Some Sample.shadowedCfg) (Some "telegram"%string) None.
Proof.
  destruct (@provider_matching_ignores_case_and_padding (Sample.env 4000)
              (Some Sample.shadowedCfg) " Telegram "%string None None)
    as [Hchunk _]; [discriminate|].
  exact Hchunk.
Defined.

Lemma X17_witness :
  Chunking.breakPreference
    (@resolveBlockStreamingChunking (Sample.env 4000)
       (Some Sample.fractionalCfg) None None) = "paragraph"%string.
Proof.
  destruct (@break_preference_is_one_of_three (Sample.env 4000)
              (Some Sample.fractionalCfg) None None)
    as (_ & _ & Hother & _).
  apply (Hother "word"%string); [reflexivity | discriminate | discriminate].
Defined.

Lemma X18_witness :
  @resolveBlockStreamingCoalescing (Sample.env 4000)
    (Some Sample.scalarSectionCfg) (Some "telegram"%string) None None
  = Some (BlockStreamingCoalescing.mk 100%Q 900%Q 10%Q (LF ++ LF)%string).
Proof.
  destruct (@provider_section_must_be_an_object (Sample.env 4000)
              (Some Sample.scalarSectionCfg) (Some "telegram"%string) None None)
    as [_ Hres].
  - intros c key [= <-] [= <-]. right. reflexivity.
  - rewrite Hres. vm_compute. reflexivity.
Defined.

Lemma X19_witness :
  @resolveTelegramDraftStreamingChunking (Sample.env 4000)
    (Some Sample.draftCfg) None
  = Chunking.mk 200%Q 600%Q "sentence".
Proof.
  destruct (@account_draft_chunk_shadows_provider_draft_chunk (Sample.env 4000)
              Sample.draftCfg None
              (ProviderCfg.mk None
                 (Some (ChunkCfg.mk (Some 50%Q) (Some 300%Q) None))
                 (Some {[ "default"%string
                          := AccountCfg.mk None (Some Sample.draftBlock) ]}))
              {[ "default"%string := AccountCfg.mk None (Some Sample.draftBlock) ]}
              (AccountCfg.mk None (Some Sample.draftBlock))
              Sample.draftBlock)
    as [_ Hres]; [reflexivity | reflexivity | reflexivity | reflexivity | ].
  rewrite Hres. reflexivity.
Defined.

Lemma X20_witness :
  @resolveBlockStreamingChunking (Sample.env 4000)
    None (Some "whatsapp"%string) (Some "work"%string)
  = Chunking.mk 800%Q 1200%Q "paragraph".
Proof.
  destruct (@chunking_defaults_without_configuration (Sample.env 4000)
              (Some "whatsapp"%string) (Some "work"%string)) as [Hbig _].
  apply Hbig. discriminate.
Defined.


Lemma X22_witness :
  @resolveBlockStreamingChunking (Sample.env 500)
    (Some Sample.resolvedBackCfg) None None
  = @resolveBlockStreamingChunking (Sample.env 500)
      (Some Sample.chunkMaxCfg) None None.
Proof.
  apply (@resolved_chunking_is_a_fixed_point (Sample.env 500)
           (Some Sample.chunkMaxCfg) (Some Sample.resolvedBackCfg) None None);
    reflexivity.
Defined.

Lemma X23_witness :
  (Chunking.maxChars
     (@resolveBlockStreamingChunking
        (withTextLimit (Sample.env 0) (Sample.fixedLimit 500))
        (Some Sample.chunkMaxCfg) None None)
   <= Chunking.maxChars
        (@resolveBlockStreamingChunking
           (withTextLimit (Sample.env 0) (Sample.fixedLimit 4000))
           (Some Sample.chunkMaxCfg) None None))%Q.
Proof.
  destruct (@sizes_grow_with_the_hard_limit (Sample.env 0)
              (Sample.fixedLimit 500) (Sample.fixedLimit 4000)
              (Some Sample.chunkMaxCfg) None None None)
    as (_ & Hmax & _); [discriminate|].
  exact Hmax.
Defined.

End ExtraWitnesses.

(** * Integer results over IEEE numbers *)
Module IeeeFacts.
Import Ieee.

Local Open Scope Z_scope.

Section Facts.

Context {env : Collaborators}.

Lemma Math_max_ofZ (a b : Z) : Math_max (ofZ a) (ofZ b) = ofZ (Z.max a b).
Proof.
  unfold Math_max, ofZ. rewrite Qle_bool_inject_Z.
  destruct (Z.leb_spec a b); do 2 f_equal; lia.
Qed.

Lemma Math_min_ofZ (a b : Z) : Math_min (ofZ a) (ofZ b) = ofZ (Z.min a b).
Proof.
  unfold Math_min, ofZ. rewrite Qle_bool_inject_Z.
  destruct (Z.leb_spec a b); do 2 f_equal; lia.
Qed.

Lemma requested_of_usable (x : jsNumber) :
  x <> NaN -> requested (Math_max (ofZ 1) (Math_floor x)).
Proof.
  destruct x as [q| | |]; intros Hx.
  - right. exists (Z.max 1 (Qfloor q)). split; [lia|].
    apply (Math_max_ofZ 1 (Qfloor q)).
  - by left.
  - right. exists 1. split; [lia | reflexivity].
  - by destruct Hx.
Qed.

Lemma clamp_max_integer (req : jsNumber) (limit : Z) :
  requested req ->
  exists zmax : Z,
    Math_max (ofZ 1) (Math_min req (ofZ limit)) = ofZ zmax /\
    1 <= zmax /\ zmax <= Z.max 1 limit /\ (limit < 1 -> zmax = 1).
Proof.
  intros [-> | (z & Hz & ->)].
  - exists (Z.max 1 limit). split; [apply (Math_max_ofZ 1 limit) | lia].
  - exists (Z.max 1 (Z.min z limit)).
    split; [by rewrite Math_min_ofZ, Math_max_ofZ | lia].
Qed.

Lemma clamp_min_integer (req : jsNumber) (zmax : Z) :
  requested req -> 1 <= zmax ->
  exists zmin : Z,
    Math_min req (ofZ zmax) = ofZ zmin /\ 1 <= zmin /\ zmin <= zmax.
Proof.
  intros [-> | (z & Hz & ->)] Hmax.
  - exists zmax. split; [reflexivity | lia].
  - exists (Z.min z zmax). split; [apply Math_min_ofZ | lia].
Qed.

Lemma orDefault_usable (o : option jsNumber) (d : jsNumber) :
  o <> Some NaN -> d <> NaN -> orDefault o d <> NaN.
Proof. destruct o as [x|]; simpl; [congruence | tauto]. Qed.

(** The sizes as every resolver computes them. *)
Lemma sizes_wellClamped (minX maxX : jsNumber) (limit : Z) :
  minX <> NaN -> maxX <> NaN ->
  let maxChars :=
    Math_max (ofZ 1)
      (Math_min (Math_max (ofZ 1) (Math_floor maxX)) (ofZ limit)) in
  let minChars := Math_min (Math_max (ofZ 1) (Math_floor minX)) maxChars in
  wellClamped minChars maxChars limit /\ (limit < 1 -> maxChars = ofZ 1).
Proof.
  intros Hmin Hmax maxChars minChars. subst minChars maxChars.
  destruct (clamp_max_integer _ limit (requested_of_usable maxX Hmax))
    as (zmax & -> & H1 & Hle & Hlow).
  destruct (clamp_min_integer _ zmax (requested_of_usable minX Hmin) H1)
    as (zmin & -> & H1' & Hle').
  split.
  - exists zmin, zmax. repeat split; assumption.
  - intros Hlimit. by rewrite (Hlow Hlimit).
Qed.

Lemma idle_integer (x : jsNumber) :
  x <> NaN -> x <> PosInfinity ->
  exists z : Z, Math_max (ofZ 0) (Math_floor x) = ofZ z /\ 0 <= z.
Proof.
  destruct x as [q| | |]; intros Hnan Hinf.
  - exists (Z.max 0 (Qfloor q)). split; [apply (Math_max_ofZ 0) | lia].
  - by destruct Hinf.
  - exists 0. split; [reflexivity | lia].
  - by destruct Hnan.
Qed.

Lemma ofZ_usable (z : Z) : ofZ z <> NaN.
Proof. discriminate. Qed.

(** C9 (amended): when the text-limit resolver answers an integer (zero
    and negative ones included), no size a resolver reads is NaN and the
    idle time it reads is neither NaN nor [Infinity], the three resolvers
    return integers with [1 <= minChars <= maxChars], [idleMs] is an
    integer that is at least 0, and a hard limit below 1 forces [maxChars]
    up to 1, above the hard limit.  Fractional and infinite sizes are
    covered. *)
Theorem C9_integer_results_for_usable_numbers
    cfg provider accountId chunking (L T : Z) :
  hardLimit cfg provider accountId = ofZ L ->
  telegramHardLimit cfg accountId = ofZ T ->
  chunkCfgOf cfg ?> ChunkCfg.minChars <> Some NaN ->
  chunkCfgOf cfg ?> ChunkCfg.maxChars <> Some NaN ->
  draftCfgOf cfg accountId ?> ChunkCfg.minChars <> Some NaN ->
  draftCfgOf cfg accountId ?> ChunkCfg.maxChars <> Some NaN ->
  coalesceMinOf cfg provider accountId chunking <> Some NaN ->
  coalesceCfgOf cfg provider accountId ?> CoalesceCfg.maxChars <> Some NaN ->
  coalesceIdleOf cfg provider accountId <> Some NaN ->
  coalesceIdleOf cfg provider accountId <> Some PosInfinity ->
  let c := resolveBlockStreamingChunking cfg provider accountId in
  let d := resolveTelegramDraftStreamingChunking cfg accountId in
  (wellClamped (Chunking.minChars c) (Chunking.maxChars c) L /\
   (L < 1 -> Chunking.maxChars c = ofZ 1)) /\
  (wellClamped (Chunking.minChars d) (Chunking.maxChars d) T /\
   (T < 1 -> Chunking.maxChars d = ofZ 1)) /\
  exists k,
    resolveBlockStreamingCoalescing cfg provider accountId chunking = Some k /\
    wellClamped (BlockStreamingCoalescing.minChars k)
                (BlockStreamingCoalescing.maxChars k) L /\
    (L < 1 -> BlockStreamingCoalescing.maxChars k = ofZ 1) /\
    exists zidle : Z,
      BlockStreamingCoalescing.idleMs k = ofZ zidle /\ 0 <= zidle.
Proof.
  intros HL HT Hcmin Hcmax Hdmin Hdmax Hkmin Hkmax Hidle Hidle' c d.
  subst c d. split; [|split].
  - unfold resolveBlockStreamingChunking; cbv zeta.
    fold (hardLimit cfg provider accountId). fold (chunkCfgOf cfg).
    rewrite HL. cbn [Chunking.minChars Chunking.maxChars].
    apply sizes_wellClamped; apply orDefault_usable;
      assumption || apply ofZ_usable.
  - unfold resolveTelegramDraftStreamingChunking; cbv zeta.
    fold (telegramHardLimit cfg accountId). fold (draftCfgOf cfg accountId).
    rewrite HT. cbn [Chunking.minChars Chunking.maxChars].
    apply sizes_wellClamped; apply orDefault_usable;
      assumption || apply ofZ_usable.
  - eexists. split; [reflexivity|].
    cbn [BlockStreamingCoalescing.minChars BlockStreamingCoalescing.maxChars
         BlockStreamingCoalescing.idleMs].
    fold (hardLimit cfg provider accountId).
    fold (providerDefaultsOf provider).
    fold (coalesceCfgOf cfg provider accountId).
    fold (coalesceMinOf cfg provider accountId chunking).
    fold (coalesceIdleOf cfg provider accountId).
    rewrite HL.
    destruct (sizes_wellClamped
                (orDefault (coalesceMinOf cfg provider accountId chunking)
                           DEFAULT_BLOCK_STREAM_MIN)
                (orDefault (coalesceCfgOf cfg provider accountId
                              ?> CoalesceCfg.maxChars) (ofZ L))
                L) as [Hwell Hlow];
      [apply orDefault_usable; assumption || apply ofZ_usable ..|].
    split; [exact Hwell|]. split; [exact Hlow|].
    apply idle_integer.
    + apply orDefault_usable; [assumption | apply ofZ_usable].
    + destruct (coalesceIdleOf cfg provider accountId) as [x|]; simpl;
        [congruence | discriminate].
Qed.

End Facts.

Lemma not_integer_NaN : ~ isInteger NaN.
Proof. intros [z Hz]. discriminate. Qed.

Lemma not_integer_PosInfinity : ~ isInteger PosInfinity.
Proof. intros [z Hz]. discriminate. Qed.

Lemma not_integer_half : ~ isInteger (Finite (2001 # 2)).
Proof. intros [z Hz]. unfold ofZ, inject_Z in Hz. discriminate. Qed.

(** Infinite configured size, fractional minimum, hard limit 0. *)
Lemma C9_witness :
  Chunking.maxChars
    (@resolveBlockStreamingChunking (Sample.env (ofZ 0))
       (Some Sample.infiniteMaxCfg) None None) = ofZ 1.
Proof.
  destruct (@C9_integer_results_for_usable_numbers (Sample.env (ofZ 0))
              (Some Sample.infiniteMaxCfg) None None None 0 0)
    as ((_ & Hlow) & _);
    [reflexivity | reflexivity | discriminate | discriminate | discriminate
    | discriminate | discriminate | discriminate | discriminate | discriminate
    | ].
  apply Hlow. reflexivity.
Defined.

(** With [maxChars: NaN] configured both sizes are NaN; with
    [idleMs: Infinity] the idle time stays infinite; with a text limit of
    1000.5 the chunking [maxChars] is 1000.5.  None of them is an
    integer. *)
Lemma C9_nan_size_gives_nan_results :
  (let r := @resolveBlockStreamingChunking (Sample.env (ofZ 4000))
              (Some Sample.nanMaxCfg) None None in
   Chunking.maxChars r = NaN /\ Chunking.minChars r = NaN /\
   ~ isInteger (Chunking.maxChars r) /\ ~ isInteger (Chunking.minChars r)) /\
  (exists k,
     @resolveBlockStreamingCoalescing (Sample.env (ofZ 4000))
       (Some Sample.infiniteIdleCfg) None None None = Some k /\
     BlockStreamingCoalescing.idleMs k = PosInfinity /\
     ~ isInteger (BlockStreamingCoalescing.idleMs k)) /\
  (let r := @resolveBlockStreamingChunking (Sample.env (Finite (2001 # 2)))
              None None None in
   Chunking.maxChars r = Finite (2001 # 2) /\
   ~ isInteger (Chunking.maxChars r)).
Proof.
  split; [|split].
  - cbv zeta. repeat split; try reflexivity; apply not_integer_NaN.
  - eexists. split; [reflexivity|].
    split; [reflexivity | apply not_integer_PosInfinity].
  - cbv zeta. split; [reflexivity | apply not_integer_half].
Qed.

End IeeeFacts.
